(** * The [authselect] Ansible module: state reader and module run

    A shallow embedding of [plugins/modules/authselect.py]:
    - the two regular expressions of [get_authselect_state], run by a small
      greedy backtracking matcher in the style of Python's [re];
    - [get_authselect_state] and [run_module], written in a monad that
      threads the host (the system behind [run_command] and the list of
      commands issued so far) and ends early on [exit_json], [fail_json]
      or an uncaught exception.

    Text is modelled as [string].  The tool is run with [LANG=C] and its
    output is expected in ASCII; the word class [\w] is modelled on ASCII
    characters, [[a-zA-Z0-9_]], and the theorems about parsing assume an
    ASCII output where the class matters. *)

From Stdlib Require Import String Ascii List ZArith Bool Arith Lia.
Import ListNotations.
Local Open Scope string_scope.
Local Open Scope nat_scope.

(** ** Characters and text *)

Definition nl : ascii := "010"%char.
Definition cr : ascii := "013"%char.
Definition LF : string := String nl EmptyString.

(** A character of 7-bit ASCII. *)
Definition is_ascii (c : ascii) : bool := nat_of_ascii c <? 128.

(** A text of ASCII characters only. *)
Fixpoint ascii_text (s : string) : bool :=
  match s with
  | EmptyString => true
  | String c s' => is_ascii c && ascii_text s'
  end.

(** [\w] on ASCII characters.  On a Python 3 [str] the class is the
    Unicode one: it also holds letters and digits outside ASCII, which this
    definition does not.  The two agree on ASCII text, and every theorem
    whose statement depends on the class is stated for ASCII output
    ([ascii_text]). *)
Definition is_word (c : ascii) : bool :=
  let n := nat_of_ascii c in
  ((48 <=? n) && (n <=? 57)) || ((65 <=? n) && (n <=? 90))
  || ((97 <=? n) && (n <=? 122)) || (n =? 95).

(** [s[n:]] *)
Fixpoint drop (n : nat) (s : string) : string :=
  match n, s with
  | S n', String _ s' => drop n' s'
  | _, _ => s
  end.

(** [s[:n]] *)
Fixpoint take (n : nat) (s : string) : string :=
  match n, s with
  | S n', String c s' => String c (take n' s')
  | _, _ => EmptyString
  end.

(** [s[i:j]] *)
Definition slice (i j : nat) (s : string) : string := take (j - i) (drop i s).

Fixpoint string_rev_app (s acc : string) : string :=
  match s with
  | EmptyString => acc
  | String c s' => string_rev_app s' (String c acc)
  end.

Definition string_rev (s : string) : string := string_rev_app s EmptyString.

Fixpoint mem_char (c : ascii) (chars : string) : bool :=
  match chars with
  | EmptyString => false
  | String d chars' => Ascii.eqb c d || mem_char c chars'
  end.

Fixpoint lstrip (chars s : string) : string :=
  match s with
  | String c s' => if mem_char c chars then lstrip chars s' else s
  | EmptyString => EmptyString
  end.

(** [s.rstrip(chars)] *)
Definition rstrip (chars s : string) : string :=
  string_rev (lstrip chars (string_rev s)).

(** ** Regular expressions

    The patterns of the module are flat: anchors, named group brackets and
    greedy repetitions of a character class. *)

Module Re.

Inductive charclass : Type :=
| Word       (* \w *)
| NonWord    (* \W *)
| Dot.       (* .  (no DOTALL: anything but a newline) *)

(** Membership in a class, for ASCII characters (see [is_word]). *)
Definition in_class (k : charclass) (c : ascii) : bool :=
  match k with
  | Word => is_word c
  | NonWord => negb (is_word c)
  | Dot => negb (Ascii.eqb c nl)
  end.

Inductive atom : Type :=
| Bol                              (* ^ *)
| Eol                              (* $ (no MULTILINE) *)
| Rep (k : charclass) (lo : nat)   (* k+ is [Rep k 1], k* is [Rep k 0] *)
| Open (name : string)             (* (?P<name> *)
| Close (name : string).           (* ) *)

Definition regex : Type := list atom.

(** A position of the matcher in the subject, with the groups seen so far. *)
Record mstate : Type := MState {
  pos : nat;
  rest : string;
  opened : list (string * nat);
  groups : list (string * string)
}.

Fixpoint assoc {A : Type} (k : string) (l : list (string * A)) : option A :=
  match l with
  | [] => None
  | (k', v) :: l' => if String.eqb k k' then Some v else assoc k l'
  end.

(** Length of the longest prefix of [s] inside the class. *)
Fixpoint span (k : charclass) (s : string) : nat :=
  match s with
  | String c s' => if in_class k c then S (span k s') else 0
  | EmptyString => 0
  end.

(** Greedy repetition: try [n] characters, then [n - 1], ... down to [lo]. *)
Fixpoint greedy {A : Type} (f : nat -> option A) (lo n : nat) : option A :=
  if n <? lo then None
  else match f n with
       | Some r => Some r
       | None => match n with
                 | O => None
                 | S n' => greedy f lo n'
                 end
       end.

Definition advance (n : nat) (st : mstate) : mstate :=
  MState (pos st + n) (drop n (rest st)) (opened st) (groups st).

(** [$] matches at the end and just before a newline that ends the text. *)
Definition at_eol (s : string) : bool :=
  match s with
  | EmptyString => true
  | String c EmptyString => Ascii.eqb c nl
  | _ => false
  end.

Fixpoint run (p : regex) (subject : string) (st : mstate) : option mstate :=
  match p with
  | [] => Some st
  | Bol :: p' => if pos st =? 0 then run p' subject st else None
  | Eol :: p' => if at_eol (rest st) then run p' subject st else None
  | Rep k lo :: p' =>
      greedy (fun n => run p' subject (advance n st)) lo (span k (rest st))
  | Open name :: p' =>
      run p' subject
          (MState (pos st) (rest st) ((name, pos st) :: opened st) (groups st))
  | Close name :: p' =>
      match assoc name (opened st) with
      | Some i =>
          run p' subject
              (MState (pos st) (rest st) (opened st)
                      ((name, slice i (pos st) subject) :: groups st))
      | None => None
      end
  end.

(** [re.match(p, subject)]: the match object, or [None]. *)
Definition re_match (p : regex) (subject : string) : option mstate :=
  run p subject (MState 0 subject [] []).

(** [mo.group(name)] *)
Definition group (name : string) (mo : mstate) : option string :=
  assoc name (groups mo).

(** [re.compile(p).split(subject)], scanning left to right.  [start] is
    where the current piece begins, [skip] counts the characters still
    covered by the last separator.  Only separators of positive length cut
    (the pattern split on here, [\W+], has no empty match). *)
Fixpoint split_scan (p : regex) (subject : string)
         (start skip i : nat) (s : string) : list string :=
  match s with
  | EmptyString => [slice start i subject]
  | String _ s' =>
      match skip with
      | S skip' => split_scan p subject start skip' (S i) s'
      | O =>
          match run p subject (MState i s [] []) with
          | Some mo =>
              if i <? pos mo
              then slice start i subject
                   :: split_scan p subject (pos mo) (pos mo - S i) (S i) s'
              else split_scan p subject start 0 (S i) s'
          | None => split_scan p subject start 0 (S i) s'
          end
      end
  end.

Definition split (p : regex) (subject : string) : list string :=
  split_scan p subject 0 0 0 subject.

End Re.

(** The pattern of the state line: [^], the group [profile] around [\w+],
    then [\W+], the group [features] around a greedy run of [.], then [$]. *)
Definition state_pattern : Re.regex :=
  [ Re.Bol; Re.Open "profile"; Re.Rep Re.Word 1; Re.Close "profile";
    Re.Rep Re.NonWord 1;
    Re.Open "features"; Re.Rep Re.Dot 0; Re.Close "features"; Re.Eol ].

(** The pattern the features text is split on, [\W+]. *)
Definition separator_pattern : Re.regex := [ Re.Rep Re.NonWord 1 ].

(** ** Python values and keyword dictionaries *)

Local Set Warnings "-register-all".

Inductive pyval : Type :=
| PNone
| PBool (b : bool)
| PInt (z : Z)
| PStr (s : string)
| PList (l : list pyval)
| PDict (d : list (string * pyval)).

(** A [dict] with string keys, in insertion order. *)
Definition pydict : Type := list (string * pyval).

(** [d.get(k)] *)
Definition dict_get (k : string) (d : pydict) : option pyval := Re.assoc k d.

(** [d[k] = v]: an existing key keeps its place, a new one goes last. *)
Fixpoint dict_set (k : string) (v : pyval) (d : pydict) : pydict :=
  match d with
  | [] => [(k, v)]
  | (k', v') :: d' =>
      if String.eqb k k' then (k, v) :: d' else (k', v') :: dict_set k v d'
  end.

(** ** The host: commands, the module object, ways a call can end *)

(** One call of [run_command(argv, environ_update=...)]. *)
Record command : Type := Command {
  argv : list string;
  environ_update : list (string * string)
}.

(** [(rc, std_out, std_err)] *)
Definition command_result : Type := (Z * string * string)%type.

(** [module.params] after argument validation: [profile] is a required
    [str], [features] an optional [list]. *)
Record params : Type := Params {
  profile : string;
  features : option (list string)
}.

Record AnsibleModule : Type := Invocation {
  check_mode : bool;
  module_params : params
}.

Inductive py_exception : Type :=
| AttributeError (msg : string)
| IndexError (msg : string).

(** How a piece of the module ends: it returns a value, or leaves the
    process through [exit_json] or [fail_json], or an exception escapes.
    [kw] holds the keywords the module passes; what [AnsibleModule] adds to
    them on the way out is not part of the module. *)
Inductive completion (A : Type) : Type :=
| Returned (a : A)
| ExitJson (kw : pydict)
| FailJson (kw : pydict)
| Raised (e : py_exception).

Arguments Returned {A} a.
Arguments ExitJson {A} kw.
Arguments FailJson {A} kw.
Arguments Raised {A} e.

Section Host.

(** The machine the module runs on: its state and what a command does
    to it. *)
Variable System : Type.
Variable exec : command -> System -> command_result * System.

Record host : Type := Host {
  system : System;
  invoked : list command      (* every [run_command] so far, oldest first *)
}.

Definition M (A : Type) : Type := host -> completion A * host.

Definition ret {A : Type} (a : A) : M A := fun h => (Returned a, h).

Definition bind {A B : Type} (c : M A) (k : A -> M B) : M B :=
  fun h =>
    match c h with
    | (Returned a, h') => k a h'
    | (ExitJson kw, h') => (ExitJson kw, h')
    | (FailJson kw, h') => (FailJson kw, h')
    | (Raised e, h') => (Raised e, h')
    end.

Definition exit_json {A : Type} (kw : pydict) : M A :=
  fun h => (ExitJson kw, h).

Definition fail_json {A : Type} (kw : pydict) : M A :=
  fun h => (FailJson kw, h).

Definition raise {A : Type} (e : py_exception) : M A :=
  fun h => (Raised e, h).

Definition run_command (c : command) : M command_result :=
  fun h =>
    let (r, s') := exec c (system h) in
    (Returned r, Host s' (invoked h ++ [c])%list).

(** [x.group(name)] on the result of [re.match]: on [None] the attribute
    lookup raises. *)
Definition group_of (mo : option Re.mstate) (name : string) : M string :=
  match mo with
  | Some m =>
      match Re.group name m with
      | Some g => ret g
      | None => raise (IndexError "no such group")
      end
  | None =>
      raise (AttributeError "'NoneType' object has no attribute 'group'")
  end.

Notation "x <- c ;; k" := (bind c (fun x => k))
  (at level 61, c at next level, right associativity).
Notation "' pat <- c ;; k" := (bind c (fun x => match x with pat => k end))
  (at level 61, pat pattern, c at next level, right associativity).

(** ** The module *)

Definition authselect_current : command :=
  Command ["/usr/bin/authselect"; "current"; "--raw"] [("LANG", "C")].

Definition unconfigured_literal : string :=
  "No existing configuration detected." ++ LF.

Definition get_authselect_state (m : AnsibleModule) : M pyval :=
  '(rc, std_out, std_err) <- run_command authselect_current ;;
  if (rc =? 2)%Z && String.eqb std_out unconfigured_literal then
    ret (PDict [("profile", PNone);
                ("features", PNone);
                ("msg", PStr (rstrip (String nl (String cr EmptyString))
                                     std_out))])
  else if (rc =? 2)%Z && String.eqb std_err EmptyString then
    let pas_out := Re.re_match state_pattern std_out in
    prof <- group_of pas_out "profile" ;;
    feat <- group_of pas_out "features" ;;
    ret (PDict [("profile", PStr prof);
                ("features",
                 PList (map PStr (Re.split separator_pattern feat)));
                ("msg", PStr "OK")])
  else
    fail_json [("rc", PInt rc);
               ("stderr", PStr std_err);
               ("msg", PStr ("Failed to execute authselect command with '"
                             ++ std_err ++ "'."))].

(** [module] is the object [AnsibleModule(argument_spec=module_args,
    supports_check_mode=True)] builds from the invocation. *)
Definition run_module (module : AnsibleModule) : M unit :=
  let result := [("changed", PBool false);
                 ("original_profile", PStr EmptyString);
                 ("features", PList [])] in
  _ <- (if check_mode module then exit_json result else ret tt) ;;
  st <- get_authselect_state module ;;
  let result := dict_set "original_profile" st result in
  let result :=
    dict_set "requested_profile" (PStr (profile (module_params module)))
             result in
  _ <- (if String.eqb (profile (module_params module)) "fail me"
        then fail_json (("msg", PStr "You requested this to fail") :: result)
        else ret tt) ;;
  exit_json result.

End Host.

Arguments Host {System} system invoked.
Arguments system {System} h.
Arguments invoked {System} h.
Arguments get_authselect_state {System} exec m h.
Arguments run_module {System} exec module h.

(** ** A stub host

    The system is the answer of the tool; every command gets that answer
    and leaves the system as it is. *)

Definition stub_exec (c : command) (s : command_result)
  : command_result * command_result := (s, s).

Definition stub (r : command_result) : host command_result := Host r [].

(** ** Names for what the theorems speak about *)

(** The host after the state query: the system as the tool left it, and
    the query added to the commands issued. *)
Definition queried {System : Type}
           (exec : command -> System -> command_result * System)
           (h : host System) : host System :=
  Host (snd (exec authselect_current (system h)))
       (invoked h ++ [authselect_current])%list.

(** The keywords [get_authselect_state] hands to [fail_json]. *)
Definition query_failure (rc : Z) (std_err : string) : pydict :=
  [("rc", PInt rc);
   ("stderr", PStr std_err);
   ("msg", PStr ("Failed to execute authselect command with '"
                 ++ std_err ++ "'."))].

(** The [result] dictionary of [run_module] once the state is read. *)
Definition seeded (st : pyval) (requested : string) : pydict :=
  [("changed", PBool false);
   ("original_profile", st);
   ("features", PList []);
   ("requested_profile", PStr requested)].

(** The snapshot the reader returns for a host without a profile. *)
Definition unconfigured_state : pyval :=
  PDict [("profile", PNone);
         ("features", PNone);
         ("msg", PStr "No existing configuration detected.")].

(** The snapshot the reader returns for a parsed state line. *)
Definition configured_state (prof : string) (feats : list string) : pyval :=
  PDict [("profile", PStr prof);
         ("features", PList (map PStr feats));
         ("msg", PStr "OK")].

(** ** The shape of an accepted state line *)

(** Every character of [s] is in the class. *)
Fixpoint all_in (k : Re.charclass) (s : string) : bool :=
  match s with
  | EmptyString => true
  | String c s' => Re.in_class k c && all_in k s'
  end.

(** A profile token: one or more word characters. *)
Definition word_token (w : string) : Prop :=
  w <> EmptyString /\ all_in Re.Word w = true.

(** A separator: one or more non-word characters. *)
Definition separators (sep : string) : Prop :=
  sep <> EmptyString /\ all_in Re.NonWord sep = true.

(** A profile token, a separator, and a features text that runs to the end
    of the line (an ending newline apart). *)
Definition state_line (s : string) : Prop :=
  exists w sep blob tail,
    s = w ++ sep ++ blob ++ tail
    /\ word_token w /\ separators sep
    /\ all_in Re.Dot blob = true
    /\ (tail = EmptyString \/ tail = LF).

(** ** The reconciler's decision rule, as the specification words it

    Action is needed when the host has no profile, when its profile is not
    the requested one, or when features are requested and differ, as a set,
    from the ones read.  [run_module] has no counterpart of this rule; it
    is stated here over the reader's snapshot to say which hosts need
    action. *)

Definition subset (a b : list string) : bool :=
  forallb (fun x => existsb (String.eqb x) b) a.

Definition same_set (a b : list string) : bool := subset a b && subset b a.

Fixpoint names (l : list pyval) : list string :=
  match l with
  | [] => []
  | PStr s :: l' => s :: names l'
  | _ :: l' => names l'
  end.

Definition spec_action_needed (desired : params) (before : pyval) : bool :=
  match before with
  | PDict d =>
      match dict_get "profile" d with
      | Some (PStr p) =>
          negb (String.eqb p (profile desired))
          || match features desired, dict_get "features" d with
             | Some want, Some (PList have) => negb (same_set want (names have))
             | Some _, _ => true
             | None, _ => false
             end
      | _ => true
      end
  | _ => true
  end.

(** ** Sample invocations and hosts *)

Definition sssd_with_sudo : params := Params "sssd" (Some ["with-sudo"]).

Definition fail_me : params := Params "fail me" None.

(** A host without a profile. *)
Definition unconfigured_host : host command_result :=
  stub (2%Z, unconfigured_literal, EmptyString).

(** A host whose state line is [sssd with-sudo with-mkhomedir]. *)
Definition sssd_host : host command_result :=
  stub (2%Z, "sssd with-sudo with-mkhomedir" ++ LF, EmptyString).

(** A host whose state line is the profile alone. *)
Definition bare_sssd_host : host command_result :=
  stub (2%Z, "sssd" ++ LF, EmptyString).

(** A host where the tool prints nothing. *)
Definition silent_host : host command_result :=
  stub (2%Z, EmptyString, EmptyString).

(** A host where the tool fails. *)
Definition denied_host : host command_result :=
  stub (1%Z, EmptyString, "permission denied").

(** ** Tactics *)

(** Case analysis on every test and every optional value of a goal. *)
Ltac split_reader :=
  repeat match goal with
         | |- context [if ?c then _ else _] => destruct c eqn:?
         | |- context [match ?o with Some _ => _ | None => _ end] =>
             destruct o eqn:?
         end.


(** ** The entry point *)

(** [main()] *)
Definition main {System : Type}
           (exec : command -> System -> command_result * System)
           (module : AnsibleModule) : M System unit :=
  run_module exec module.

(** ** Feature texts *)

(** Separators and tokens in turn: [sep1 tok1 sep2 tok2 ...]. *)
Fixpoint weave (l : list (string * string)) : string :=
  match l with
  | [] => EmptyString
  | (sep, tok) :: l' => sep ++ tok ++ weave l'
  end.

(** Every separator of [l] is one or more non-word characters and every
    token one or more word characters. *)
Definition separated (l : list (string * string)) : Prop :=
  Forall (fun st => separators (fst st) /\ word_token (snd st)) l.

(** Only word characters (the empty text included). *)
Definition word_only (s : string) : Prop := all_in Re.Word s = true.

(** A host whose features have no hyphen. *)
Definition plain_features_host : host command_result :=
  stub (2%Z, "sssd sudo mkhomedir" ++ LF, EmptyString).

(** A host whose state line ends in a blank. *)
Definition trailing_blank_host : host command_result :=
  stub (2%Z, "sssd sudo " ++ LF, EmptyString).

(** A host where the tool prints a second line. *)
Definition two_line_host : host command_result :=
  stub (2%Z, "sssd sudo" ++ LF ++ "extra" ++ LF, EmptyString).
(** ** Text *)

Lemma append_empty_r (s : string) : s ++ EmptyString = s.
Proof. induction s as [|c s IH]; simpl; [|rewrite IH]; reflexivity. Qed.

Lemma take_drop (n : nat) (s : string) : take n s ++ drop n s = s.
Proof.
  revert s. induction n as [|n IH]; intros [|c s]; simpl; try reflexivity.
  rewrite IH. reflexivity.
Qed.

Lemma drop_drop (a b : nat) (s : string) : drop b (drop a s) = drop (a + b) s.
Proof.
  revert s. induction a as [|a IH]; intros s; simpl; [reflexivity|].
  destruct s as [|c s]; [destruct b; reflexivity|]. apply IH.
Qed.

Lemma drop_app_length (a b : string) : drop (String.length a) (a ++ b) = b.
Proof. induction a as [|c a IH]; simpl; [destruct b; reflexivity|exact IH]. Qed.

Lemma take_app_length (a b : string) : take (String.length a) (a ++ b) = a.
Proof.
  induction a as [|c a IH]; simpl; [destruct b; reflexivity|].
  rewrite IH. reflexivity.
Qed.

Lemma take_0 (s : string) : take 0 s = EmptyString.
Proof. destruct s; reflexivity. Qed.

Lemma drop_0 (s : string) : drop 0 s = s.
Proof. destruct s; reflexivity. Qed.

Lemma slice_from_0 (n : nat) (s : string) : slice 0 n s = take n s.
Proof. unfold slice. rewrite Nat.sub_0_r, drop_0. reflexivity. Qed.

Lemma slice_add (i n : nat) (s : string) :
  slice i (i + n) s = take n (drop i s).
Proof. unfold slice. replace (i + n - i) with n by lia. reflexivity. Qed.

(** ** The matcher *)

Module ReFacts.
Import Re.

Lemma greedy_sound {A : Type} (f : nat -> option A) (lo n : nat) (r : A) :
  greedy f lo n = Some r -> exists k, lo <= k <= n /\ f k = Some r.
Proof.
  induction n as [|n IH]; simpl.
  - destruct lo as [|lo]; simpl; [|discriminate].
    destruct (f 0) eqn:E; [|discriminate].
    intros H; injection H as <-. exists 0. split; [lia|exact E].
  - destruct (Nat.ltb_spec (S n) lo) as [Hlt|Hge]; [discriminate|].
    destruct (f (S n)) eqn:E.
    + intros H; injection H as <-. exists (S n). split; [lia|exact E].
    + intros H. destruct (IH H) as (k & Hk & Hf).
      exists k. split; [lia|exact Hf].
Qed.

(** The longest repetition is tried first. *)
Lemma greedy_first {A : Type} (f : nat -> option A) (lo n : nat) (r : A) :
  lo <= n -> f n = Some r -> greedy f lo n = Some r.
Proof.
  intros Hle Hf. destruct n as [|n]; simpl.
  - destruct lo; [|lia]. simpl. rewrite Hf. reflexivity.
  - destruct (Nat.ltb_spec (S n) lo); [lia|]. rewrite Hf. reflexivity.
Qed.

(** Backtracking finds a repetition count that works whenever one exists. *)
Lemma greedy_complete {A : Type} (f : nat -> option A) (lo n k : nat) :
  lo <= k <= n -> f k <> None -> greedy f lo n <> None.
Proof.
  induction n as [|n IH]; intros Hk Hf.
  - assert (k = 0) by lia. subst k. simpl.
    destruct lo; [|lia]. simpl. destruct (f 0); [discriminate|exact Hf].
  - simpl. destruct (Nat.ltb_spec (S n) lo); [lia|].
    destruct (f (S n)) eqn:E; [discriminate|].
    apply IH; [|exact Hf].
    destruct (Nat.eq_dec k (S n)) as [->|]; [congruence|lia].
Qed.

Lemma span_all_in (k : charclass) (n : nat) (s : string) :
  n <= span k s -> all_in k (take n s) = true.
Proof.
  revert s. induction n as [|n IH]; intros s Hn.
  - rewrite take_0. reflexivity.
  - destruct s as [|c s]; simpl in *; [lia|].
    destruct (in_class k c); [|lia]. simpl. apply IH. lia.
Qed.

Lemma span_take_nonempty (k : charclass) (n : nat) (s : string) :
  1 <= n -> n <= span k s -> take n s <> EmptyString.
Proof.
  intros H1 Hn. destruct s as [|c s]; simpl in Hn; [lia|].
  destruct n; [lia|]. simpl. discriminate.
Qed.

Lemma span_app (k : charclass) (a b : string) :
  all_in k a = true -> span k (a ++ b) = String.length a + span k b.
Proof.
  induction a as [|c a IH]; simpl; [reflexivity|].
  intros H. apply andb_true_iff in H as [Hc Ha].
  rewrite Hc, IH by exact Ha. reflexivity.
Qed.

(** A class and its complement: after a run of one, the other spans 0. *)
Lemma span_word_separators (sep rest : string) :
  separators sep -> span Word (sep ++ rest) = 0.
Proof.
  intros [Hne Hall]. destruct sep as [|c sep]; [congruence|].
  simpl in *. apply andb_true_iff in Hall as [Hc _].
  destruct (is_word c); [discriminate|reflexivity].
Qed.

Lemma at_eol_inv (s : string) :
  at_eol s = true -> s = EmptyString \/ s = LF.
Proof.
  destruct s as [|c [|d s]]; simpl; intros H; try discriminate.
  - left; reflexivity.
  - right. apply Ascii.eqb_eq in H. subst c. reflexivity.
Qed.

Lemma at_eol_tail (tail : string) :
  tail = EmptyString \/ tail = LF -> at_eol tail = true.
Proof. intros [->| ->]; reflexivity. Qed.

Lemma state_pattern_sound (s : string) (mo : mstate) :
  re_match state_pattern s = Some mo ->
  exists k1 k2 k3,
    1 <= k1 <= span Word s
    /\ 1 <= k2 <= span NonWord (drop k1 s)
    /\ k3 <= span Dot (drop (k1 + k2) s)
    /\ at_eol (drop (k1 + k2 + k3) s) = true
    /\ group "profile" mo = Some (take k1 s)
    /\ group "features" mo = Some (take k3 (drop (k1 + k2) s)).
Proof.
  unfold re_match, state_pattern. cbn [run pos rest opened groups Nat.eqb].
  intros H. apply greedy_sound in H as (k1 & Hk1 & H).
  cbn [run advance pos rest opened groups assoc String.eqb Ascii.eqb Bool.eqb] in H.
  apply greedy_sound in H as (k2 & Hk2 & H).
  apply greedy_sound in H as (k3 & Hk3 & H).
  destruct (at_eol (drop k3 (drop k2 (drop k1 s)))) eqn:Heol; [|discriminate].
  injection H as <-.
  rewrite !drop_drop in *.
  exists k1, k2, k3. split; [lia|]. split; [lia|]. split; [lia|].
  split; [rewrite Nat.add_assoc in Heol; exact Heol|].
  unfold group. cbn [groups assoc String.eqb Ascii.eqb Bool.eqb].
  change (0 + k1) with k1. rewrite slice_from_0, slice_add. split; reflexivity.
Qed.

Lemma length_nonempty (s : string) : s <> EmptyString -> 1 <= String.length s.
Proof. destruct s; [congruence|simpl; lia]. Qed.

Lemma state_pattern_complete (w sep blob tail : string) :
  word_token w -> separators sep -> all_in Dot blob = true ->
  tail = EmptyString \/ tail = LF ->
  re_match state_pattern (w ++ sep ++ blob ++ tail) <> None.
Proof.
  intros [Hw0 Hw] [Hs0 Hs] Hb Ht.
  unfold re_match, state_pattern.
  cbn [run advance pos rest opened groups assoc String.eqb Ascii.eqb Bool.eqb
       Nat.eqb].
  apply greedy_complete with (k := String.length w).
  { rewrite span_app by exact Hw. pose proof (length_nonempty w Hw0). lia. }
  rewrite drop_app_length.
  apply greedy_complete with (k := String.length sep).
  { rewrite span_app by exact Hs. pose proof (length_nonempty sep Hs0). lia. }
  rewrite drop_app_length.
  apply greedy_complete with (k := String.length blob).
  { rewrite span_app by exact Hb. lia. }
  rewrite drop_app_length, (at_eol_tail tail Ht). discriminate.
Qed.

Lemma state_pattern_exact (w sep blob tail : string) :
  word_token w -> separators sep -> all_in Dot blob = true ->
  tail = EmptyString \/ tail = LF ->
  span NonWord (blob ++ tail) = 0 ->
  exists mo,
    re_match state_pattern (w ++ sep ++ blob ++ tail) = Some mo
    /\ group "profile" mo = Some w
    /\ group "features" mo = Some blob.
Proof.
  intros [Hw0 Hw] [Hs0 Hs] Hb Ht Hmax.
  unfold re_match, state_pattern.
  cbn [run advance pos rest opened groups assoc String.eqb Ascii.eqb Bool.eqb
       Nat.eqb].
  eexists. split.
  - rewrite span_app, span_word_separators, Nat.add_0_r by (assumption || (split; assumption)).
    apply greedy_first; [apply length_nonempty; exact Hw0|].
    rewrite drop_app_length, span_app, Hmax, Nat.add_0_r by exact Hs.
    apply greedy_first; [apply length_nonempty; exact Hs0|].
    rewrite drop_app_length.
    assert (Hsp : span Dot (blob ++ tail) = String.length blob).
    { rewrite span_app by exact Hb. destruct Ht as [->| ->]; simpl; lia. }
    rewrite Hsp. apply greedy_first; [lia|].
    rewrite drop_app_length, (at_eol_tail tail Ht). reflexivity.
  - unfold group. cbn [groups assoc String.eqb Ascii.eqb Bool.eqb].
    change (0 + String.length w) with (String.length w).
    rewrite slice_from_0, slice_add, take_app_length.
    rewrite <- (drop_drop (String.length w)), !drop_app_length, take_app_length.
    split; reflexivity.
Qed.
(** The pattern accepts exactly the state lines. *)
Lemma state_line_iff (s : string) :
  state_line s <-> re_match state_pattern s <> None.
Proof.
  split.
  - intros (w & sep & blob & tail & -> & Hw & Hs & Hb & Ht).
    apply state_pattern_complete; assumption.
  - destruct (re_match state_pattern s) as [mo|] eqn:E; [|congruence].
    intros _. apply state_pattern_sound in E
      as (k1 & k2 & k3 & Hk1 & Hk2 & Hk3 & Heol & _ & _).
    exists (take k1 s), (take k2 (drop k1 s)), (take k3 (drop (k1 + k2) s)),
           (drop (k1 + k2 + k3) s).
    split.
    { rewrite <- (drop_drop (k1 + k2) k3), <- (drop_drop k1 k2).
      rewrite !take_drop. reflexivity. }
    split.
    { split; [apply (span_take_nonempty Word)|apply span_all_in]; lia. }
    split.
    { split; [apply (span_take_nonempty NonWord)|apply span_all_in]; lia. }
    split; [apply span_all_in; exact Hk3|].
    apply at_eol_inv. exact Heol.
Qed.

End ReFacts.

(** ** The state reader, branch by branch *)

Section Reader.

Context {System : Type}.
Variable exec : command -> System -> command_result * System.

Lemma run_command_eq (c : command) (h : host System) :
  run_command System exec c h
  = (Returned (fst (exec c (system h))),
     Host (snd (exec c (system h))) (invoked h ++ [c])%list).
Proof.
  unfold run_command. destruct (exec c (system h)); reflexivity.
Qed.


(** A well-formed state line: the profile is the leading token, the
    features are the pieces of the text after the separator. *)
Lemma get_authselect_state_configured
      (m : AnsibleModule) (h : host System) (w sep blob tail : string) :
  fst (exec authselect_current (system h))
  = (2%Z, w ++ sep ++ blob ++ tail, EmptyString) ->
  w ++ sep ++ blob ++ tail <> unconfigured_literal ->
  word_token w -> separators sep -> all_in Re.Dot blob = true ->
  tail = EmptyString \/ tail = LF ->
  Re.span Re.NonWord (blob ++ tail) = 0 ->
  get_authselect_state exec m h
  = (Returned (configured_state w (Re.split separator_pattern blob)),
     queried exec h).
Proof.
  intros Hq Hlit Hw Hs Hb Ht Hmax.
  destruct (ReFacts.state_pattern_exact w sep blob tail Hw Hs Hb Ht Hmax)
    as (mo & Hmo & Hprof & Hfeat).
  unfold get_authselect_state, bind. rewrite run_command_eq, Hq.
  apply String.eqb_neq in Hlit. rewrite Hlit. cbn [Z.eqb Pos.eqb andb].
  rewrite String.eqb_refl, Hmo. unfold group_of. rewrite Hprof, Hfeat.
  reflexivity.
Qed.

Lemma get_authselect_state_failed
      (m : AnsibleModule) (h : host System) (rc : Z) (std_out std_err : string) :
  fst (exec authselect_current (system h)) = (rc, std_out, std_err) ->
  rc <> 2%Z \/ (std_err <> EmptyString /\ std_out <> unconfigured_literal) ->
  get_authselect_state exec m h
  = (FailJson (query_failure rc std_err), queried exec h).
Proof.
  intros Hq Hc. unfold get_authselect_state, bind.
  rewrite run_command_eq, Hq.
  destruct Hc as [Hrc | [Herr Hout]].
  - apply Z.eqb_neq in Hrc. rewrite Hrc. reflexivity.
  - apply String.eqb_neq in Herr. apply String.eqb_neq in Hout.
    rewrite Herr, Hout, !andb_false_r. reflexivity.
Qed.

Lemma run_module_after_read
      (m : AnsibleModule) (h h' : host System) (st : pyval) :
  check_mode m = false ->
  get_authselect_state exec m h = (Returned st, h') ->
  run_module exec m h
  = (if String.eqb (profile (module_params m)) "fail me"
     then FailJson (("msg", PStr "You requested this to fail")
                      :: seeded st (profile (module_params m)))
     else ExitJson (seeded st (profile (module_params m))),
     h').
Proof.
  intros Hc Hs. unfold run_module, bind. rewrite Hc. cbn [ret].
  rewrite Hs. cbn.
  destruct (String.eqb (profile (module_params m)) "fail me"); reflexivity.
Qed.

Lemma run_module_read_aborts
      (m : AnsibleModule) (h h' : host System) (o : completion pyval) :
  check_mode m = false ->
  get_authselect_state exec m h = (o, h') ->
  (forall st, o <> Returned st) ->
  run_module exec m h
  = (match o with
     | Returned _ => Returned tt
     | ExitJson kw => ExitJson kw
     | FailJson kw => FailJson kw
     | Raised e => Raised e
     end, h').
Proof.
  intros Hc Hs Hn. unfold run_module, bind. rewrite Hc. cbn [ret].
  rewrite Hs. destruct o; try reflexivity. exfalso. eapply Hn; reflexivity.
Qed.

End Reader.

(** ** The module as a whole *)

Section Run.

Context {System : Type}.
Variable exec : command -> System -> command_result * System.


(** The reader either returns one of its two snapshots, or fails through
    [fail_json], or raises: it never ends the module with [exit_json]. *)
Lemma get_authselect_state_cases (m : AnsibleModule) (h : host System) :
  let o := fst (get_authselect_state exec m h) in
  o = Returned unconfigured_state
  \/ (exists prof feats, o = Returned (configured_state prof feats))
  \/ (exists rc err, o = FailJson (query_failure rc err))
  \/ (exists e, o = Raised e).
Proof.
  cbv zeta. unfold get_authselect_state, bind. rewrite run_command_eq.
  destruct (fst (exec authselect_current (system h))) as [[rc out] err].
  destruct ((rc =? 2)%Z && String.eqb out unconfigured_literal) eqn:E1.
  { left. apply andb_true_iff in E1 as [_ E1].
    apply String.eqb_eq in E1. subst out. reflexivity. }
  destruct ((rc =? 2)%Z && String.eqb err EmptyString) eqn:E2.
  2:{ right; right; left. exists rc, err. reflexivity. }
  unfold group_of, Re.group, ret, raise.
  split_reader; cbn.
  - right; left. eexists _, _. reflexivity.
  - right; right; right. eexists. reflexivity.
  - right; right; right. eexists. reflexivity.
  - right; right; right. eexists. reflexivity.
Qed.

Lemma run_module_check (m : AnsibleModule) (h : host System) :
  check_mode m = true ->
  run_module exec m h
  = (ExitJson [("changed", PBool false);
               ("original_profile", PStr EmptyString);
               ("features", PList [])], h).
Proof. intros Hc. unfold run_module, bind. rewrite Hc. reflexivity. Qed.


(** A result that leaves through [exit_json] reports no change, and
    outside check mode it carries the snapshot just read. *)
Lemma run_module_exit (m : AnsibleModule) (h : host System) (kw : pydict) :
  check_mode m = false ->
  fst (run_module exec m h) = ExitJson kw ->
  exists st,
    fst (get_authselect_state exec m h) = Returned st
    /\ kw = seeded st (profile (module_params m)).
Proof.
  intros Hc Hx. pose proof (get_authselect_state_cases m h) as Hcases.
  destruct (get_authselect_state exec m h) as [o h'] eqn:E.
  cbv zeta in Hcases. simpl in Hcases.
  destruct o as [st|kw'|kw'|e].
  - rewrite (run_module_after_read exec m h _ st Hc E) in Hx. simpl in Hx.
    destruct (String.eqb (profile (module_params m)) "fail me");
      [discriminate|].
    injection Hx as <-. exists st. split; reflexivity.
  - exfalso.
    destruct Hcases as [H|[(?&?&H)|[(?&?&H)|(?&H)]]]; discriminate.
  - rewrite (run_module_read_aborts exec m h _ _ Hc E) in Hx;
      [|discriminate]. discriminate.
  - rewrite (run_module_read_aborts exec m h _ _ Hc E) in Hx;
      [|discriminate]. discriminate.
Qed.

Lemma run_module_fail (m : AnsibleModule) (h : host System) (kw : pydict) :
  fst (run_module exec m h) = FailJson kw ->
  dict_get "changed" kw <> Some (PBool true).
Proof.
  destruct (check_mode m) eqn:Hc.
  { rewrite (run_module_check m h Hc). discriminate. }
  intros Hx. pose proof (get_authselect_state_cases m h) as Hcases.
  destruct (get_authselect_state exec m h) as [o h'] eqn:E.
  cbv zeta in Hcases. simpl in Hcases.
  destruct o as [st|kw'|kw'|e].
  - rewrite (run_module_after_read exec m h _ st Hc E) in Hx. simpl in Hx.
    destruct (String.eqb (profile (module_params m)) "fail me");
      [|discriminate].
    injection Hx as <-. discriminate.
  - rewrite (run_module_read_aborts exec m h _ _ Hc E) in Hx;
      [|discriminate]. discriminate.
  - rewrite (run_module_read_aborts exec m h _ _ Hc E) in Hx;
      [|discriminate]. injection Hx as <-.
    destruct Hcases as [H|[(?&?&H)|[(rc&err&H)|(?&H)]]]; try discriminate.
    injection H as ->. discriminate.
  - rewrite (run_module_read_aborts exec m h _ _ Hc E) in Hx;
      [|discriminate]. discriminate.
Qed.

Lemma run_module_changed (m : AnsibleModule) (h : host System) (kw : pydict) :
  fst (run_module exec m h) = ExitJson kw ->
  dict_get "changed" kw = Some (PBool false).
Proof.
  destruct (check_mode m) eqn:Hc.
  - rewrite (run_module_check m h Hc). intros Hx. injection Hx as <-.
    reflexivity.
  - intros Hx. destruct (run_module_exit m h kw Hc Hx) as (st & _ & ->).
    reflexivity.
Qed.


End Run.

(** ** The claims *)

Section Claims.

Context {System : Type}.
Variable exec : command -> System -> command_result * System.

(** C5.  When the state query exits with code 2 and its output is exactly
    the line "No existing configuration detected.", the reader returns the
    unconfigured snapshot, with profile and features both [None]; it does
    not fail, whatever the tool wrote to its error stream. *)
Theorem unconfigured_detected
        (m : AnsibleModule) (h : host System) (std_err : string) :
  fst (exec authselect_current (system h))
  = (2%Z, unconfigured_literal, std_err) ->
  get_authselect_state exec m h
  = (Returned (PDict [("profile", PNone);
                      ("features", PNone);
                      ("msg", PStr "No existing configuration detected.")]),
     queried exec h).
Proof.
  intros Hq. unfold get_authselect_state, bind.
  rewrite run_command_eq, Hq. reflexivity.
Qed.

(** C7.  When the exit code of the state query is not 2, or is 2 with a
    non-empty error stream and an output other than the unconfigured
    line, the reader fails through [fail_json] with that exit code, the
    error stream as it is, and a message quoting it; the module run ends
    with that failure, and the query is the only command it has issued. *)
Theorem query_failure_surfaced
        (m : AnsibleModule) (h : host System)
        (rc : Z) (std_out std_err : string) :
  check_mode m = false ->
  fst (exec authselect_current (system h)) = (rc, std_out, std_err) ->
  rc <> 2%Z
  \/ (rc = 2%Z /\ std_err <> EmptyString /\ std_out <> unconfigured_literal) ->
  get_authselect_state exec m h
  = (FailJson [("rc", PInt rc);
               ("stderr", PStr std_err);
               ("msg", PStr ("Failed to execute authselect command with '"
                             ++ std_err ++ "'."))],
     queried exec h)
  /\ run_module exec m h
     = (FailJson (query_failure rc std_err), queried exec h)
  /\ invoked (snd (run_module exec m h))
     = (invoked h ++ [authselect_current])%list.
Proof.
  intros Hc Hq Hcase.
  assert (Hs : get_authselect_state exec m h
               = (FailJson (query_failure rc std_err), queried exec h)).
  { apply (get_authselect_state_failed exec m h rc std_out std_err Hq).
    destruct Hcase as [H|(_ & H1 & H2)]; [left; exact H|right; split; assumption]. }
  assert (Hr : run_module exec m h
               = (FailJson (query_failure rc std_err), queried exec h)).
  { rewrite (run_module_read_aborts exec m h _ _ Hc Hs); [reflexivity|].
    discriminate. }
  split; [exact Hs|]. split; [exact Hr|]. rewrite Hr. reflexivity.
Qed.

(** C10.  Outside check mode, when the requested profile is the string
    "fail me" and the state read returns a snapshot, the module fails
    with the message "You requested this to fail", whatever the snapshot
    is. *)
Theorem fail_me_fails
        (m : AnsibleModule) (h h' : host System) (st : pyval) :
  check_mode m = false ->
  profile (module_params m) = "fail me" ->
  get_authselect_state exec m h = (Returned st, h') ->
  run_module exec m h
  = (FailJson [("msg", PStr "You requested this to fail");
               ("changed", PBool false);
               ("original_profile", st);
               ("features", PList []);
               ("requested_profile", PStr "fail me")],
     h').
Proof.
  intros Hc Hp Hs. rewrite (run_module_after_read exec m h h' st Hc Hs).
  rewrite Hp. reflexivity.
Qed.


(** C4.  With exit code 2 and an empty error stream, an ASCII output that
    is neither the unconfigured line nor a state line (a profile token, a
    separator and a features text) makes the reader raise
    [AttributeError]: [re.match] gives [None] and the group is looked up
    on it.  No [fail_json] is reached, and the module run ends with the
    same uncaught exception. *)
Theorem unparseable_output_raises
        (m : AnsibleModule) (h : host System) (std_out : string) :
  check_mode m = false ->
  fst (exec authselect_current (system h)) = (2%Z, std_out, EmptyString) ->
  ascii_text std_out = true ->
  std_out <> unconfigured_literal ->
  ~ state_line std_out ->
  get_authselect_state exec m h
  = (Raised (AttributeError "'NoneType' object has no attribute 'group'"),
     queried exec h)
  /\ run_module exec m h
     = (Raised (AttributeError "'NoneType' object has no attribute 'group'"),
        queried exec h).
Proof.
  intros Hc Hq Hascii Hlit Hline.
  assert (Hs : get_authselect_state exec m h
               = (Raised (AttributeError
                            "'NoneType' object has no attribute 'group'"),
                  queried exec h)).
  { unfold get_authselect_state, bind. rewrite run_command_eq, Hq.
    apply String.eqb_neq in Hlit. rewrite Hlit. cbn [Z.eqb Pos.eqb andb].
    rewrite String.eqb_refl.
    destruct (Re.re_match state_pattern std_out) as [mo|] eqn:E.
    - exfalso. apply Hline. apply ReFacts.state_line_iff. congruence.
    - reflexivity. }
  split; [exact Hs|].
  rewrite (run_module_read_aborts exec m h _ _ Hc Hs); [reflexivity|].
  discriminate.
Qed.

(** C9.  With exit code 2 and an empty error stream, an ASCII output made
    of a
    profile token followed by separator characters only makes the reader
    return that profile with the feature list [['']]: one feature, the
    empty string, rather than no feature. *)
Theorem empty_remainder_one_empty_feature
        (m : AnsibleModule) (h : host System) (w sep : string) :
  fst (exec authselect_current (system h)) = (2%Z, w ++ sep, EmptyString) ->
  ascii_text (w ++ sep) = true ->
  word_token w ->
  separators sep ->
  get_authselect_state exec m h
  = (Returned (PDict [("profile", PStr w);
                      ("features", PList [PStr EmptyString]);
                      ("msg", PStr "OK")]),
     queried exec h).
Proof.
  intros Hq Hascii Hw Hs.
  assert (Hlit : w ++ sep <> unconfigured_literal).
  { intros Heq.
    assert (Hspan : Re.span Re.Word (w ++ sep) = String.length w).
    { rewrite <- (append_empty_r sep).
      rewrite ReFacts.span_app, ReFacts.span_word_separators by
          (exact Hs || apply Hw). lia. }
    rewrite Heq in Hspan.
    assert (Hsep : sep = drop (String.length w) unconfigured_literal).
    { rewrite <- Heq, drop_app_length. reflexivity. }
    rewrite <- Hspan in Hsep. destruct Hs as [_ Hall]. rewrite Hsep in Hall.
    vm_compute in Hall. discriminate. }
  destruct (ReFacts.state_pattern_exact w sep EmptyString EmptyString)
    as (mo & Hmo & Hprof & Hfeat); auto.
  cbn [append] in Hmo. rewrite append_empty_r in Hmo.
  unfold get_authselect_state, bind. rewrite run_command_eq, Hq.
  apply String.eqb_neq in Hlit. rewrite Hlit. cbn [Z.eqb Pos.eqb andb].
  rewrite String.eqb_refl, Hmo. unfold group_of. rewrite Hprof, Hfeat.
  reflexivity.
Qed.

End Claims.

(** ** The claims on sample hosts *)

(** C3.  For the output "sssd with-sudo with-mkhomedir" and exit code 2 the
    reader returns the profile [sssd] with the features [with], [sudo],
    [with], [mkhomedir]: the text is split at every run of non-word
    characters, the hyphens included, so the feature names [with-sudo] and
    [with-mkhomedir] are not in the result. *)
Theorem sssd_features_split_at_hyphens (m : AnsibleModule) :
  get_authselect_state stub_exec m sssd_host
  = (Returned (PDict [("profile", PStr "sssd");
                      ("features", PList [PStr "with"; PStr "sudo";
                                          PStr "with"; PStr "mkhomedir"]);
                      ("msg", PStr "OK")]),
     queried stub_exec sssd_host)
  /\ same_set ["with"; "sudo"; "with"; "mkhomedir"]
              ["with-sudo"; "with-mkhomedir"] = false.
Proof. split; reflexivity. Qed.

Lemma unconfigured_detected_witness :
  fst (stub_exec authselect_current (system unconfigured_host))
  = (2%Z, unconfigured_literal, EmptyString)
  /\ get_authselect_state stub_exec (Invocation false sssd_with_sudo)
                          unconfigured_host
     = (Returned unconfigured_state, queried stub_exec unconfigured_host).
Proof.
  split; [reflexivity|].
  apply (unconfigured_detected stub_exec (Invocation false sssd_with_sudo)
                               unconfigured_host EmptyString).
  reflexivity.
Defined.

Lemma query_failure_surfaced_witness :
  run_module stub_exec (Invocation false sssd_with_sudo) denied_host
  = (FailJson [("rc", PInt 1);
               ("stderr", PStr "permission denied");
               ("msg", PStr "Failed to execute authselect command with 'permission denied'.")],
     queried stub_exec denied_host).
Proof.
  apply (query_failure_surfaced
           stub_exec (Invocation false sssd_with_sudo) denied_host
           1%Z EmptyString "permission denied").
  - reflexivity.
  - reflexivity.
  - left. discriminate.
Defined.

Lemma fail_me_fails_witness :
  run_module stub_exec (Invocation false fail_me) unconfigured_host
  = (FailJson [("msg", PStr "You requested this to fail");
               ("changed", PBool false);
               ("original_profile", unconfigured_state);
               ("features", PList []);
               ("requested_profile", PStr "fail me")],
     queried stub_exec unconfigured_host).
Proof.
  apply (fail_me_fails stub_exec (Invocation false fail_me) unconfigured_host).
  - reflexivity.
  - reflexivity.
  - reflexivity.
Defined.


Lemma unparseable_output_raises_witness :
  get_authselect_state stub_exec (Invocation false sssd_with_sudo) silent_host
  = (Raised (AttributeError "'NoneType' object has no attribute 'group'"),
     queried stub_exec silent_host).
Proof.
  apply (unparseable_output_raises stub_exec (Invocation false sssd_with_sudo)
                                   silent_host EmptyString).
  - reflexivity.
  - reflexivity.
  - reflexivity.
  - discriminate.
  - intros Hline. apply ReFacts.state_line_iff in Hline. apply Hline.
    reflexivity.
Defined.

Lemma empty_remainder_one_empty_feature_witness :
  get_authselect_state stub_exec (Invocation false sssd_with_sudo) bare_sssd_host
  = (Returned (PDict [("profile", PStr "sssd");
                      ("features", PList [PStr EmptyString]);
                      ("msg", PStr "OK")]),
     queried stub_exec bare_sssd_host).
Proof.
  apply (empty_remainder_one_empty_feature
           stub_exec (Invocation false sssd_with_sudo) bare_sssd_host "sssd" LF).
  - reflexivity.
  - reflexivity.
  - split; [discriminate|reflexivity].
  - split; [discriminate|reflexivity].
Defined.

(** C1.  On a host without a profile, where action is needed, the run
    outside check mode reads the unconfigured snapshot, issues the state
    query and no other command, and exits with [changed] false: no commit
    is invoked and no change is reported. *)
Lemma unconfigured_host_not_committed :
  let m := Invocation false sssd_with_sudo in
  let r := run_module stub_exec m unconfigured_host in
  fst (get_authselect_state stub_exec m unconfigured_host)
  = Returned unconfigured_state
  /\ spec_action_needed sssd_with_sudo unconfigured_state = true
  /\ fst r = ExitJson (seeded unconfigured_state "sssd")
  /\ invoked (snd r) = [authselect_current]
  /\ ~ ((exists c, In c (invoked (snd r)) /\ c <> authselect_current)
        /\ exists kw, fst r = ExitJson kw
                      /\ dict_get "changed" kw = Some (PBool true)).
Proof.
  cbv zeta. repeat split.
  intros [_ (kw & Hx & Hch)]. vm_compute in Hx. injection Hx as <-.
  discriminate.
Qed.

(** C2.  On a host without a profile, where action is needed, the run in
    check mode issues no command (so no commit, and no state read either)
    and exits with [changed] false: the change that is needed is not
    reported. *)
Lemma check_mode_reports_no_change :
  let m := Invocation true sssd_with_sudo in
  let r := run_module stub_exec m unconfigured_host in
  spec_action_needed sssd_with_sudo unconfigured_state = true
  /\ fst (get_authselect_state stub_exec m unconfigured_host)
     = Returned unconfigured_state
  /\ invoked (snd r) = []
  /\ ~ (exists kw, fst r = ExitJson kw
                   /\ dict_get "changed" kw = Some (PBool true)).
Proof.
  cbv zeta. repeat split.
  intros (kw & Hx & Hch). vm_compute in Hx. injection Hx as <-.
  discriminate.
Qed.

(** C8.  In check mode on a host without a profile [original_profile] is
    the empty string, not [None]; outside check mode on a host with the
    profile [sssd] it is the reader's whole dictionary, not the string
    [sssd]; and neither result has an [original_features] entry. *)
Lemma original_profile_not_a_name :
  let checked :=
    fst (run_module stub_exec (Invocation true sssd_with_sudo) unconfigured_host) in
  let applied :=
    fst (run_module stub_exec (Invocation false sssd_with_sudo) bare_sssd_host) in
  (exists kw, checked = ExitJson kw
              /\ dict_get "original_profile" kw = Some (PStr EmptyString)
              /\ dict_get "original_profile" kw <> Some PNone
              /\ dict_get "original_features" kw = None)
  /\ (exists kw, applied = ExitJson kw
                 /\ dict_get "original_profile" kw <> Some (PStr "sssd")
                 /\ dict_get "original_features" kw = None).
Proof.
  cbv zeta. split; eexists; (split; [reflexivity|]); repeat split; discriminate.
Qed.

(** ** Splitting the features text *)

Module SplitFacts.
Import Re ReFacts.

Lemma length_append (a b : string) :
  String.length (a ++ b) = String.length a + String.length b.
Proof. induction a as [|c a IH]; simpl; [|rewrite IH]; reflexivity. Qed.

Lemma append_assoc (a b c : string) : (a ++ b) ++ c = a ++ (b ++ c).
Proof. induction a as [|x a IH]; simpl; [|rewrite IH]; reflexivity. Qed.

Lemma all_in_app (k : charclass) (a b : string) :
  all_in k (a ++ b) = all_in k a && all_in k b.
Proof.
  induction a as [|c a IH]; simpl; [reflexivity|].
  rewrite IH, andb_assoc. reflexivity.
Qed.

Lemma span_le_length (k : charclass) (s : string) : span k s <= String.length s.
Proof.
  induction s as [|c s IH]; simpl; [lia|]. destruct (in_class k c); lia.
Qed.

(** The piece between [start] and the scanning position. *)
Lemma slice_piece (pre cur rest : string) :
  slice (String.length pre) (String.length pre + String.length cur)
        (pre ++ cur ++ rest) = cur.
Proof. rewrite slice_add, drop_app_length, take_app_length. reflexivity. Qed.

(** One try of the separator pattern: it takes the whole run of non-word
    characters at the position, and fails when there is none. *)
Lemma run_separator (subject : string) (i : nat) (s : string) :
  run separator_pattern subject (MState i s [] [])
  = match span NonWord s with
    | O => None
    | S n => Some (MState (i + S n) (drop (S n) s) [] [])
    end.
Proof.
  unfold separator_pattern. cbn [run rest]. destruct (span NonWord s) as [|n].
  - reflexivity.
  - cbn [greedy Nat.ltb Nat.leb]. reflexivity.
Qed.

(** Characters under a separator already found are passed over. *)
Lemma split_scan_skip (subject a s : string) (start i : nat) :
  split_scan separator_pattern subject start (String.length a) i (a ++ s)
  = split_scan separator_pattern subject start 0 (i + String.length a) s.
Proof.
  revert i. induction a as [|c a IH]; intros i.
  - simpl. rewrite Nat.add_0_r. reflexivity.
  - cbn [String.length append split_scan]. rewrite IH.
    replace (S i + String.length a) with (i + S (String.length a)) by lia.
    reflexivity.
Qed.

(** Word characters extend the current piece. *)
Lemma split_scan_token (subject tok s : string) (start i : nat) :
  all_in Word tok = true ->
  split_scan separator_pattern subject start 0 i (tok ++ s)
  = split_scan separator_pattern subject start 0 (i + String.length tok) s.
Proof.
  revert i. induction tok as [|c tok IH]; intros i Hall.
  - simpl. rewrite Nat.add_0_r. reflexivity.
  - simpl in Hall. apply andb_true_iff in Hall as [Hc Hall].
    cbn [append split_scan]. rewrite run_separator. cbn [span in_class].
    rewrite Hc. cbn [negb]. rewrite IH by exact Hall.
    cbn [String.length].
    replace (S i + String.length tok) with (i + S (String.length tok)) by lia.
    reflexivity.
Qed.

(** A whole run of non-word characters ends the current piece. *)
Lemma split_scan_separator (subject sep s : string) (start i : nat) :
  separators sep ->
  span NonWord s = 0 ->
  split_scan separator_pattern subject start 0 i (sep ++ s)
  = slice start i subject
    :: split_scan separator_pattern subject (i + String.length sep) 0
                  (i + String.length sep) s.
Proof.
  intros [Hne Hall] Hmax. destruct sep as [|c sep]; [congruence|].
  assert (Hspan : span NonWord (String c sep ++ s) = S (String.length sep)).
  { rewrite span_app by exact Hall. rewrite Hmax. simpl. lia. }
  cbn [append split_scan]. rewrite run_separator.
  cbn [append] in Hspan. rewrite Hspan. cbn [pos].
  destruct (Nat.ltb_spec i (i + S (String.length sep))) as [_|Hge]; [|lia].
  replace (i + S (String.length sep) - S i) with (String.length sep) by lia.
  rewrite split_scan_skip. cbn [String.length].
  replace (S i + String.length sep) with (i + S (String.length sep)) by lia.
  reflexivity.
Qed.

(** [split] always returns at least one piece. *)
Lemma split_scan_nonempty (p : regex) (subject s : string) (start skip i : nat) :
  split_scan p subject start skip i s <> [].
Proof.
  revert start skip i. induction s as [|c s IH]; intros start skip i.
  - discriminate.
  - cbn [split_scan]. destruct skip as [|skip]; [|apply IH].
    destruct (run p subject (MState i (String c s) [] [])) as [mo|];
      [|apply IH].
    destruct (i <? pos mo); [discriminate|apply IH].
Qed.

Lemma span_nonword_token (tok s : string) :
  word_token tok -> span NonWord (tok ++ s) = 0.
Proof.
  intros [Hne Hall]. destruct tok as [|c tok]; [congruence|].
  simpl in *. apply andb_true_iff in Hall as [Hc _]. rewrite Hc. reflexivity.
Qed.

(** Every piece [split] cuts is made of word characters only.  The scan is
    followed with the text before the current piece ([pre]), the piece so
    far ([cur]) and the characters of a found separator still to pass
    ([skip]). *)
Lemma split_scan_word_only (s subject pre cur : string) (skip : nat) :
  subject = pre ++ cur ++ s ->
  all_in Word cur = true ->
  skip <= String.length s ->
  (skip <> 0 -> cur = EmptyString) ->
  Forall word_only
         (split_scan separator_pattern subject
                     (String.length pre + skip) skip
                     (String.length pre + String.length cur) s).
Proof.
  revert subject pre cur skip.
  induction s as [|c s IH]; intros subject pre cur skip Hsub Hcur Hskip Hmode.
  - simpl in Hskip. assert (skip = 0) by lia. subst skip.
    cbn [split_scan]. rewrite Nat.add_0_r, Hsub, slice_piece.
    constructor; [exact Hcur|constructor].
  - cbn [split_scan]. destruct skip as [|skip].
    + rewrite run_separator. cbn [span in_class].
      destruct (is_word c) eqn:Hc; cbn [negb].
      * (* a word character joins the piece *)
        specialize (IH subject pre (cur ++ String c EmptyString) 0).
        rewrite length_append in IH. cbn [String.length] in IH.
        replace (String.length pre + (String.length cur + 1))
          with (S (String.length pre + String.length cur)) in IH by lia.
        apply IH.
        -- rewrite Hsub, append_assoc. reflexivity.
        -- rewrite all_in_app, Hcur. simpl. rewrite Hc. reflexivity.
        -- lia.
        -- congruence.
      * (* a separator starts: the piece is cut *)
        cbn [pos].
        destruct (Nat.ltb_spec (String.length pre + String.length cur)
                               (String.length pre + String.length cur
                                + S (span NonWord s))) as [_|Hge]; [|lia].
        rewrite Nat.add_0_r, Hsub at 1. rewrite slice_piece.
        constructor; [exact Hcur|].
        specialize (IH subject (pre ++ cur ++ String c EmptyString)
                       EmptyString (span NonWord s)).
        rewrite !length_append in IH. cbn [String.length] in IH.
        replace (String.length pre + (String.length cur + 1) + span NonWord s)
          with (String.length pre + String.length cur + S (span NonWord s))
          in IH by lia.
        replace (String.length pre + (String.length cur + 1) + 0)
          with (S (String.length pre + String.length cur)) in IH by lia.
        replace (String.length pre + String.length cur + S (span NonWord s)
                 - S (String.length pre + String.length cur))
          with (span NonWord s) by lia.
        apply IH.
        -- rewrite Hsub, !append_assoc. reflexivity.
        -- reflexivity.
        -- apply span_le_length.
        -- reflexivity.
    + (* under a separator *)
      rewrite (Hmode ltac:(discriminate)) in *. cbn [String.length] in *.
      specialize (IH subject (pre ++ String c EmptyString) EmptyString skip).
      rewrite length_append in IH. cbn [String.length] in IH.
      replace (String.length pre + 1 + skip)
        with (String.length pre + S skip) in IH by lia.
      replace (String.length pre + 1 + 0)
        with (S (String.length pre + 0)) in IH by lia.
      apply IH.
      * rewrite Hsub, append_assoc. reflexivity.
      * reflexivity.
      * lia.
      * reflexivity.
Qed.

Lemma split_word_only (s : string) :
  Forall word_only (split separator_pattern s).
Proof.
  unfold split.
  apply (split_scan_word_only s s EmptyString EmptyString 0);
    [reflexivity|reflexivity|lia|congruence].
Qed.

(** Tokens woven with separators are cut back into the same tokens; a
    separator at the very end leaves one more piece, the empty one. *)
Lemma split_scan_weave (l : list (string * string)) (pre cur trail : string) :
  all_in Word cur = true ->
  separated l ->
  trail = EmptyString \/ separators trail ->
  split_scan separator_pattern (pre ++ cur ++ weave l ++ trail)
             (String.length pre) 0 (String.length pre + String.length cur)
             (weave l ++ trail)
  = (cur :: map snd l
       ++ match trail with EmptyString => [] | _ => [EmptyString] end)%list.
Proof.
  revert pre cur. induction l as [|[sep tok] l IH]; intros pre cur Hcur Hl Ht.
  - cbn [weave append map app]. destruct Ht as [->|Ht].
    + cbn [split_scan]. rewrite slice_piece. reflexivity.
    + rewrite <- (append_empty_r trail) at 2.
      rewrite split_scan_separator by (exact Ht || reflexivity).
      rewrite slice_piece. cbn [split_scan]. unfold slice at 1.
      rewrite Nat.sub_diag, take_0.
      destruct Ht as [Hne _]. destruct trail; [congruence|reflexivity].
  - inversion Hl as [|x l' [Hsep Htok] Hl']; subst. cbn [fst snd] in *.
    cbn [weave map]. rewrite !append_assoc.
    rewrite split_scan_separator;
      [|exact Hsep|apply span_nonword_token; exact Htok].
    rewrite slice_piece.
    rewrite split_scan_token by apply Htok.
    specialize (IH (pre ++ cur ++ sep) tok (proj2 Htok) Hl' Ht).
    rewrite !length_append, !append_assoc in IH.
    rewrite Nat.add_assoc in IH. rewrite IH. reflexivity.
Qed.

Lemma split_weave (tok trail : string) (l : list (string * string)) :
  all_in Word tok = true ->
  separated l ->
  trail = EmptyString \/ separators trail ->
  split separator_pattern (tok ++ weave l ++ trail)
  = (tok :: map snd l
       ++ match trail with EmptyString => [] | _ => [EmptyString] end)%list.
Proof.
  intros Htok Hl Ht. unfold split.
  pose proof (split_scan_weave l EmptyString tok trail Htok Hl Ht) as H.
  cbn [append String.length Nat.add] in H.
  rewrite <- H. clear H.
  rewrite (split_scan_token _ tok _ 0 0 Htok). reflexivity.
Qed.

End SplitFacts.

(** ** The state pattern: the parse it settles on *)

Module PatternFacts.
Import Re ReFacts SplitFacts.

Lemma drop_app_le (n : nat) (a b : string) :
  n <= String.length a -> drop n (a ++ b) = drop n a ++ b.
Proof.
  revert a. induction n as [|n IH]; intros a Hn.
  - rewrite !drop_0. reflexivity.
  - destruct a as [|c a]; simpl in *; [lia|]. apply IH. lia.
Qed.

Lemma drop_all (n : nat) (s : string) :
  String.length s <= n -> drop n s = EmptyString.
Proof.
  revert s. induction n as [|n IH]; intros [|c s] Hn; simpl in *;
    try reflexivity; [lia|]. apply IH. lia.
Qed.

Lemma all_in_drop (k : charclass) (n : nat) (s : string) :
  all_in k s = true -> all_in k (drop n s) = true.
Proof.
  revert s. induction n as [|n IH]; intros [|c s] H; simpl in *;
    try assumption. apply andb_true_iff in H as [_ H]. apply IH. exact H.
Qed.

(** After the longest run of a class comes no further character of it. *)
Lemma span_drop_span (k : charclass) (s : string) :
  span k (drop (span k s) s) = 0.
Proof.
  induction s as [|c s IH]; [reflexivity|].
  cbn [span]. destruct (in_class k c) eqn:Hc.
  - cbn [drop]. exact IH.
  - cbn [drop span]. rewrite Hc. reflexivity.
Qed.

(** A state line can always be cut with the separator as long as it can
    be: the features text then does not start with a separator. *)
Lemma state_line_maximal (s : string) :
  state_line s ->
  exists w sep blob tail,
    s = w ++ sep ++ blob ++ tail
    /\ word_token w /\ separators sep
    /\ all_in Dot blob = true
    /\ (tail = EmptyString \/ tail = LF)
    /\ span NonWord (blob ++ tail) = 0.
Proof.
  intros (w & sep & blob & tail & -> & Hw & [Hs0 Hs] & Hb & Ht).
  set (e := span NonWord (blob ++ tail)).
  assert (He : all_in NonWord (take e (blob ++ tail)) = true)
    by (apply span_all_in; reflexivity).
  assert (Hsep : separators (sep ++ take e (blob ++ tail))).
  { split.
    - destruct sep; [congruence|discriminate].
    - rewrite all_in_app, Hs, He. reflexivity. }
  assert (Hcut : w ++ sep ++ blob ++ tail
                 = w ++ (sep ++ take e (blob ++ tail))
                     ++ drop e (blob ++ tail)).
  { rewrite append_assoc, take_drop. reflexivity. }
  destruct (Nat.le_gt_cases e (String.length blob)) as [Hle|Hgt].
  - exists w, (sep ++ take e (blob ++ tail)), (drop e blob), tail.
    rewrite <- (drop_app_le e blob tail Hle).
    split; [exact Hcut|]. split; [exact Hw|]. split; [exact Hsep|].
    split; [apply all_in_drop; exact Hb|]. split; [exact Ht|].
    apply span_drop_span.
  - exists w, (sep ++ take e (blob ++ tail)), EmptyString, EmptyString.
    assert (Hall : drop e (blob ++ tail) = EmptyString).
    { apply drop_all. rewrite length_append.
      pose proof (span_le_length NonWord (blob ++ tail)) as Hlen.
      rewrite length_append in Hlen. fold e in Hlen.
      destruct Ht as [->| ->]; simpl in *; lia. }
    rewrite Hall in Hcut.
    split; [exact Hcut|]. split; [exact Hw|]. split; [exact Hsep|].
    split; [reflexivity|]. split; [left; reflexivity|reflexivity].
Qed.

(** What a match of the state pattern holds: the profile group is the
    leading token, the features group the text after the whole separator,
    up to the end of the line. *)
Lemma state_pattern_parse (s : string) (mo : mstate) :
  re_match state_pattern s = Some mo ->
  exists w sep blob tail,
    s = w ++ sep ++ blob ++ tail
    /\ word_token w /\ separators sep
    /\ all_in Dot blob = true
    /\ (tail = EmptyString \/ tail = LF)
    /\ span NonWord (blob ++ tail) = 0
    /\ group "profile" mo = Some w
    /\ group "features" mo = Some blob.
Proof.
  intros Hmo.
  assert (Hline : state_line s) by (apply state_line_iff; congruence).
  destruct (state_line_maximal s Hline)
    as (w & sep & blob & tail & Hs & Hw & Hsep & Hb & Ht & Hmax).
  destruct (state_pattern_exact w sep blob tail Hw Hsep Hb Ht Hmax)
    as (mo' & Hmo' & Hp & Hf).
  rewrite <- Hs, Hmo in Hmo'. injection Hmo' as <-.
  exists w, sep, blob, tail. repeat (split; [assumption|]). exact Hf.
Qed.

(** The leading token of a state line is its longest run of word
    characters. *)
Lemma leading_token (w sep rest : string) :
  word_token w -> separators sep ->
  take (span Word (w ++ sep ++ rest)) (w ++ sep ++ rest) = w.
Proof.
  intros [_ Hw] Hsep.
  rewrite span_app, span_word_separators, Nat.add_0_r by assumption.
  apply take_app_length.
Qed.

End PatternFacts.

(** ** More about the reader and the module run *)

Section ReaderFacts.

Context {System : Type}.
Variable exec : command -> System -> command_result * System.

(** The reader on exit code 2, no error text and an output other than the
    unconfigured line: what [re.match] gives decides. *)
Lemma get_authselect_state_on_match
      (m : AnsibleModule) (h : host System) (std_out : string) :
  fst (exec authselect_current (system h)) = (2%Z, std_out, EmptyString) ->
  std_out <> unconfigured_literal ->
  fst (get_authselect_state exec m h)
  = match Re.re_match state_pattern std_out with
    | Some mo =>
        match Re.group "profile" mo, Re.group "features" mo with
        | Some prof, Some feat =>
            Returned (configured_state
                        prof (Re.split separator_pattern feat))
        | Some _, None => Raised (IndexError "no such group")
        | None, _ => Raised (IndexError "no such group")
        end
    | None =>
        Raised (AttributeError "'NoneType' object has no attribute 'group'")
    end.
Proof.
  intros Hq Hlit. unfold get_authselect_state, bind.
  rewrite run_command_eq, Hq.
  apply String.eqb_neq in Hlit. rewrite Hlit. cbn [Z.eqb Pos.eqb andb].
  rewrite String.eqb_refl.
  destruct (Re.re_match state_pattern std_out) as [mo|]; [|reflexivity].
  unfold group_of, ret, raise.
  destruct (Re.group "profile" mo); [|reflexivity].
  destruct (Re.group "features" mo); reflexivity.
Qed.

(** Every way the reader returns a snapshot. *)
Lemma get_authselect_state_inv
      (m : AnsibleModule) (h : host System)
      (rc : Z) (std_out std_err : string) (st : pyval) :
  fst (exec authselect_current (system h)) = (rc, std_out, std_err) ->
  fst (get_authselect_state exec m h) = Returned st ->
  rc = 2%Z
  /\ ((std_out = unconfigured_literal /\ st = unconfigured_state)
      \/ (std_out <> unconfigured_literal /\ std_err = EmptyString
          /\ exists w sep blob tail,
              std_out = w ++ sep ++ blob ++ tail
              /\ word_token w /\ separators sep
              /\ all_in Re.Dot blob = true
              /\ (tail = EmptyString \/ tail = LF)
              /\ Re.span Re.NonWord (blob ++ tail) = 0
              /\ st = configured_state
                        w (Re.split separator_pattern blob))).
Proof.
  intros Hq Hst.
  destruct (Z.eq_dec rc 2) as [->|Hrc].
  2:{ rewrite (get_authselect_state_failed exec m h rc std_out std_err Hq)
        in Hst by (left; exact Hrc). discriminate. }
  split; [reflexivity|].
  destruct (String.eqb_spec std_out unconfigured_literal) as [->|Hlit].
  { left. split; [reflexivity|].
    unfold get_authselect_state, bind in Hst.
    rewrite run_command_eq, Hq in Hst.
    change (Returned unconfigured_state = Returned st) in Hst.
    injection Hst as <-. reflexivity. }
  right. split; [exact Hlit|].
  destruct (String.eqb_spec std_err EmptyString) as [->|Herr].
  2:{ rewrite (get_authselect_state_failed exec m h 2 std_out std_err Hq)
        in Hst by (right; split; assumption). discriminate. }
  split; [reflexivity|].
  rewrite (get_authselect_state_on_match m h std_out Hq Hlit) in Hst.
  destruct (Re.re_match state_pattern std_out) as [mo|] eqn:Hmo;
    [|discriminate].
  destruct (PatternFacts.state_pattern_parse std_out mo Hmo)
    as (w & sep & blob & tail & Hs & Hw & Hsep & Hb & Ht & Hmax & Hp & Hf).
  rewrite Hp, Hf in Hst. injection Hst as <-.
  exists w, sep, blob, tail. repeat (split; [assumption|]). reflexivity.
Qed.

End ReaderFacts.

Lemma word_only_excludes (c : ascii) (s : string) :
  word_only s -> is_word c = false -> mem_char c s = true -> False.
Proof.
  unfold word_only. induction s as [|d s IH]; simpl; [discriminate|].
  intros Hall Hc Hin. apply andb_true_iff in Hall as [Hd Hall].
  apply orb_true_iff in Hin as [Heq|Hin]; [|exact (IH Hall Hc Hin)].
  apply Ascii.eqb_eq in Heq. subst d. congruence.
Qed.

(** A newline inside a text stops the run of [.] at or before it. *)
Lemma span_dot_newline (x y : string) :
  Re.span Re.Dot (x ++ String nl y) <= String.length x.
Proof.
  induction x as [|c x IH]; simpl; [lia|].
  destruct (negb (Ascii.eqb c nl)); lia.
Qed.

Lemma append_cancel_l (a b c : string) : a ++ b = a ++ c -> b = c.
Proof.
  intros H. apply (f_equal (drop (String.length a))) in H.
  rewrite !drop_app_length in H. exact H.
Qed.

Section More.

Context {System : Type}.
Variable exec : command -> System -> command_result * System.

(** X1.  With exit code 2, no error text and an ASCII output other than the
    unconfigured line, the reader returns a snapshot exactly when the
    output is a state line: a profile token, a separator, and a features
    text that runs to the end of the line. *)
Theorem reader_returns_iff_state_line
        (m : AnsibleModule) (h : host System) (std_out : string) :
  fst (exec authselect_current (system h)) = (2%Z, std_out, EmptyString) ->
  ascii_text std_out = true ->
  std_out <> unconfigured_literal ->
  (exists st, fst (get_authselect_state exec m h) = Returned st)
  <-> state_line std_out.
Proof.
  intros Hq Hascii Hlit.
  rewrite (get_authselect_state_on_match exec m h std_out Hq Hlit).
  split.
  - intros [st Hst]. apply ReFacts.state_line_iff.
    destruct (Re.re_match state_pattern std_out); [discriminate|discriminate].
  - intros Hline. apply ReFacts.state_line_iff in Hline.
    destruct (Re.re_match state_pattern std_out) as [mo|] eqn:Hmo;
      [|congruence].
    destruct (PatternFacts.state_pattern_parse std_out mo Hmo)
      as (w & _ & blob & _ & _ & _ & _ & _ & _ & _ & Hp & Hf).
    rewrite Hp, Hf. eexists. reflexivity.
Qed.

(** X2.  Whenever the reader returns a profile name for an ASCII output,
    it is the longest
    run of word characters the output starts with, and it is not empty. *)
Theorem profile_is_leading_token
        (m : AnsibleModule) (h : host System)
        (rc : Z) (std_out std_err : string) (d : pydict) (p : string) :
  fst (exec authselect_current (system h)) = (rc, std_out, std_err) ->
  ascii_text std_out = true ->
  fst (get_authselect_state exec m h) = Returned (PDict d) ->
  dict_get "profile" d = Some (PStr p) ->
  word_token p /\ p = take (Re.span Re.Word std_out) std_out.
Proof.
  intros Hq Hascii Hst Hp.
  destruct (get_authselect_state_inv exec m h rc std_out std_err _ Hq Hst)
    as [_ [[_ Hu]|(_ & _ & w & sep & blob & tail & Hs & Hw & Hsep & _ & _ & _ & Hc)]].
  - injection Hu as ->. discriminate.
  - injection Hc as ->. injection Hp as <-. split; [exact Hw|].
    rewrite Hs. symmetry. apply PatternFacts.leading_token; assumption.
Qed.

(** X3.  Whenever the reader returns a feature list for an ASCII output,
    the list is not
    empty and every name in it is made of word characters only: no name
    holds a hyphen, a blank or a newline. *)
Theorem features_are_word_pieces
        (m : AnsibleModule) (h : host System)
        (rc : Z) (std_out std_err : string) (d : pydict) (fs : list pyval) :
  fst (exec authselect_current (system h)) = (rc, std_out, std_err) ->
  ascii_text std_out = true ->
  fst (get_authselect_state exec m h) = Returned (PDict d) ->
  dict_get "features" d = Some (PList fs) ->
  exists feats,
    fs = map PStr feats
    /\ feats <> []
    /\ Forall word_only feats
    /\ Forall (fun f => mem_char "-"%char f = false
                        /\ mem_char " "%char f = false
                        /\ mem_char nl f = false) feats.
Proof.
  intros Hq Hascii Hst Hf.
  destruct (get_authselect_state_inv exec m h rc std_out std_err _ Hq Hst)
    as [_ [[_ Hu]|(_ & _ & w & sep & blob & tail & _ & _ & _ & _ & _ & _ & Hc)]].
  - injection Hu as ->. discriminate.
  - injection Hc as ->. injection Hf as <-.
    exists (Re.split separator_pattern blob).
    split; [reflexivity|]. split; [apply SplitFacts.split_scan_nonempty|].
    pose proof (SplitFacts.split_word_only blob) as Hall.
    split; [exact Hall|].
    eapply Forall_impl; [|exact Hall]. intros f Hw.
    repeat split.
    + destruct (mem_char "-"%char f) eqn:E; [|reflexivity].
      exfalso. apply (word_only_excludes "-"%char f Hw); [reflexivity|exact E].
    + destruct (mem_char " "%char f) eqn:E; [|reflexivity].
      exfalso. apply (word_only_excludes " "%char f Hw); [reflexivity|exact E].
    + destruct (mem_char nl f) eqn:E; [|reflexivity].
      exfalso. apply (word_only_excludes nl f Hw); [reflexivity|exact E].
Qed.

(** X4.  An ASCII state line whose features are word tokens, the first set off
    by the whole separator after the profile and the others by separators
    without a newline, is read back as that profile and exactly those
    tokens, in order. *)
Theorem word_features_round_trip
        (m : AnsibleModule) (h : host System)
        (w sep tok tail : string) (l : list (string * string)) :
  fst (exec authselect_current (system h))
  = (2%Z, w ++ sep ++ (tok ++ weave l) ++ tail, EmptyString) ->
  ascii_text (w ++ sep ++ (tok ++ weave l) ++ tail) = true ->
  w ++ sep ++ (tok ++ weave l) ++ tail <> unconfigured_literal ->
  word_token w -> separators sep ->
  word_token tok -> separated l ->
  all_in Re.Dot (tok ++ weave l) = true ->
  tail = EmptyString \/ tail = LF ->
  get_authselect_state exec m h
  = (Returned (PDict [("profile", PStr w);
                      ("features", PList (map PStr (tok :: map snd l)));
                      ("msg", PStr "OK")]),
     queried exec h).
Proof.
  intros Hq Hascii Hlit Hw Hsep Htok Hl Hdot Ht.
  rewrite (get_authselect_state_configured
             exec m h w sep (tok ++ weave l) tail Hq Hlit Hw Hsep Hdot Ht).
  - pose proof (SplitFacts.split_weave tok EmptyString l
                                       (proj2 Htok) Hl (or_introl eq_refl))
      as Hsplit.
    rewrite append_empty_r, app_nil_r in Hsplit.
    unfold configured_state. rewrite Hsplit. reflexivity.
  - rewrite SplitFacts.append_assoc.
    apply SplitFacts.span_nonword_token. exact Htok.
Qed.

(** X5.  A separator (without a newline) after the last feature of an
    ASCII state line adds one more feature to the list read, the empty string. *)
Theorem trailing_separator_adds_empty_feature
        (m : AnsibleModule) (h : host System)
        (w sep tok trail tail : string) (l : list (string * string)) :
  fst (exec authselect_current (system h))
  = (2%Z, w ++ sep ++ (tok ++ weave l ++ trail) ++ tail, EmptyString) ->
  ascii_text (w ++ sep ++ (tok ++ weave l ++ trail) ++ tail) = true ->
  w ++ sep ++ (tok ++ weave l ++ trail) ++ tail <> unconfigured_literal ->
  word_token w -> separators sep ->
  word_token tok -> separated l -> separators trail ->
  all_in Re.Dot (tok ++ weave l ++ trail) = true ->
  tail = EmptyString \/ tail = LF ->
  get_authselect_state exec m h
  = (Returned (PDict [("profile", PStr w);
                      ("features",
                       PList (map PStr ((tok :: map snd l)
                                          ++ [EmptyString])%list));
                      ("msg", PStr "OK")]),
     queried exec h).
Proof.
  intros Hq Hascii Hlit Hw Hsep Htok Hl Htr Hdot Ht.
  rewrite (get_authselect_state_configured
             exec m h w sep (tok ++ weave l ++ trail) tail
             Hq Hlit Hw Hsep Hdot Ht).
  - pose proof (SplitFacts.split_weave tok trail l
                                       (proj2 Htok) Hl (or_intror Htr))
      as Hsplit.
    unfold configured_state. rewrite Hsplit.
    destruct Htr as [Hne _]. destruct trail; [congruence|reflexivity].
  - rewrite SplitFacts.append_assoc.
    apply SplitFacts.span_nonword_token. exact Htok.
Qed.

(** X6.  Outside check mode and for an ASCII output, the module ends
    through [exit_json] exactly when the requested profile is not "fail me", the query exits with code
    2, and its output is the unconfigured line or, with no error text, a
    state line. *)
Theorem run_module_succeeds_iff
        (m : AnsibleModule) (h : host System)
        (rc : Z) (std_out std_err : string) :
  check_mode m = false ->
  fst (exec authselect_current (system h)) = (rc, std_out, std_err) ->
  ascii_text std_out = true ->
  (exists kw, fst (run_module exec m h) = ExitJson kw)
  <-> (profile (module_params m) <> "fail me"
       /\ rc = 2%Z
       /\ (std_out = unconfigured_literal
           \/ (std_err = EmptyString /\ state_line std_out))).
Proof.
  intros Hc Hq Hascii. split.
  - intros [kw Hx].
    destruct (run_module_exit exec m h kw Hc Hx) as (st & Hst & _).
    split.
    { intros Hp. destruct (get_authselect_state exec m h) as [o h'] eqn:E.
      simpl in Hst. subst o.
      rewrite (run_module_after_read exec m h h' st Hc E), Hp in Hx.
      discriminate. }
    destruct (get_authselect_state_inv exec m h rc std_out std_err st Hq Hst)
      as [Hrc [[Hu _]|(_ & Herr & w & sep & blob & tail
                       & Hs & Hw & Hsep & Hb & Ht & _)]].
    + split; [exact Hrc|]. left. exact Hu.
    + split; [exact Hrc|]. right. split; [exact Herr|].
      exists w, sep, blob, tail. repeat (split; [assumption|]). exact Ht.
  - intros (Hp & -> & Hout).
    assert (Hret : exists st, fst (get_authselect_state exec m h) = Returned st).
    { destruct (String.eqb_spec std_out unconfigured_literal) as [->|Hlit].
      - exists unconfigured_state.
        unfold get_authselect_state, bind. rewrite run_command_eq, Hq.
        reflexivity.
      - destruct Hout as [Hu|[-> Hline]]; [congruence|].
        rewrite (get_authselect_state_on_match exec m h std_out Hq Hlit).
        apply ReFacts.state_line_iff in Hline.
        destruct (Re.re_match state_pattern std_out) as [mo|] eqn:Hmo;
          [|congruence].
        destruct (PatternFacts.state_pattern_parse std_out mo Hmo)
          as (w & _ & blob & _ & _ & _ & _ & _ & _ & _ & Hp' & Hf).
        rewrite Hp', Hf. eexists. reflexivity. }
    destruct Hret as [st Hst].
    destruct (get_authselect_state exec m h) as [o h'] eqn:E.
    simpl in Hst. subst o.
    rewrite (run_module_after_read exec m h h' st Hc E).
    apply String.eqb_neq in Hp. rewrite Hp. eexists. reflexivity.
Qed.

End More.

(** The first piece [split] cuts holds at least the piece so far. *)
Lemma split_scan_first (s subject pre cur : string) :
  subject = pre ++ cur ++ s ->
  cur <> EmptyString ->
  exists first rest,
    Re.split_scan separator_pattern subject (String.length pre) 0
                  (String.length pre + String.length cur) s
    = first :: rest
    /\ first <> EmptyString.
Proof.
  revert cur. induction s as [|c s IH]; intros cur Hsub Hcur.
  - cbn [Re.split_scan]. rewrite Hsub, SplitFacts.slice_piece.
    exists cur, []. split; [reflexivity|exact Hcur].
  - cbn [Re.split_scan]. rewrite SplitFacts.run_separator.
    cbn [Re.span Re.in_class]. destruct (is_word c) eqn:Hc; cbn [negb].
    + specialize (IH (cur ++ String c EmptyString)).
      rewrite SplitFacts.length_append in IH. cbn [String.length] in IH.
      replace (String.length pre + (String.length cur + 1))
        with (S (String.length pre + String.length cur)) in IH by lia.
      apply IH.
      * rewrite Hsub, SplitFacts.append_assoc. reflexivity.
      * destruct cur; [congruence|discriminate].
    + cbn [Re.pos].
      destruct (Nat.ltb_spec (String.length pre + String.length cur)
                             (String.length pre + String.length cur
                              + S (Re.span Re.NonWord s))) as [_|Hge]; [|lia].
      eexists _, _. split; [reflexivity|].
      rewrite Hsub, SplitFacts.slice_piece. exact Hcur.
Qed.

Section Edges.

Context {System : Type}.
Variable exec : command -> System -> command_result * System.

(** X7.  With exit code 2 and no error text, an ASCII output that does not
    start
    with a word character (the empty output among them), or whose leading
    token is followed by nothing, makes the reader raise [AttributeError];
    no [fail_json] is reached. *)
Theorem no_token_or_no_separator_raises
        (m : AnsibleModule) (h : host System) (std_out : string) :
  fst (exec authselect_current (system h)) = (2%Z, std_out, EmptyString) ->
  ascii_text std_out = true ->
  Re.span Re.Word std_out = 0
  \/ Re.span Re.NonWord (drop (Re.span Re.Word std_out) std_out) = 0 ->
  fst (get_authselect_state exec m h)
  = Raised (AttributeError "'NoneType' object has no attribute 'group'").
Proof.
  intros Hq Hascii Hshape.
  assert (Hlit : std_out <> unconfigured_literal).
  { intros ->. destruct Hshape as [H|H]; vm_compute in H; discriminate. }
  rewrite (get_authselect_state_on_match exec m h std_out Hq Hlit).
  destruct (Re.re_match state_pattern std_out) as [mo|] eqn:Hmo;
    [exfalso|reflexivity].
  destruct (PatternFacts.state_pattern_parse std_out mo Hmo)
    as (w & sep & blob & tail & Hs & Hw & Hsep & _).
  assert (Hspan : Re.span Re.Word std_out = String.length w).
  { rewrite Hs, ReFacts.span_app, ReFacts.span_word_separators
      by (exact Hsep || apply Hw). lia. }
  destruct Hshape as [H|H].
  - rewrite Hspan in H. destruct Hw as [Hne _]. destruct w; [congruence|].
    discriminate.
  - rewrite Hspan, Hs, drop_app_length, ReFacts.span_app in H by apply Hsep.
    destruct Hsep as [Hne _]. destruct sep; [congruence|]. discriminate.
Qed.

(** X8.  With exit code 2 and no error text, an ASCII output with more text
    after the line of the profile and its features (a newline inside or
    after the features, followed by anything) makes the reader raise
    [AttributeError]: the second line is neither read nor reported. *)
Theorem second_line_raises
        (m : AnsibleModule) (h : host System)
        (w sep tok x y : string) :
  fst (exec authselect_current (system h))
  = (2%Z, w ++ sep ++ tok ++ x ++ String nl y, EmptyString) ->
  ascii_text (w ++ sep ++ tok ++ x ++ String nl y) = true ->
  word_token w -> separators sep -> word_token tok ->
  y <> EmptyString ->
  fst (get_authselect_state exec m h)
  = Raised (AttributeError "'NoneType' object has no attribute 'group'").
Proof.
  intros Hq Hascii Hw Hsep Htok Hy.
  set (out := w ++ sep ++ tok ++ x ++ String nl y) in *.
  assert (Hy1 : 1 <= String.length y) by (destruct y; [congruence|simpl; lia]).
  assert (Hlit : out <> unconfigured_literal).
  { intros Heq.
    pose proof (span_dot_newline (w ++ sep ++ tok ++ x) y) as Hdot.
    rewrite !SplitFacts.append_assoc in Hdot. fold out in Hdot.
    assert (Hlen : String.length out
                   = String.length (w ++ sep ++ tok ++ x)
                     + S (String.length y)).
    { unfold out. rewrite <- !SplitFacts.append_assoc.
      rewrite (SplitFacts.length_append _ (String nl y)). reflexivity. }
    rewrite Heq in Hdot, Hlen.
    assert (Hd : Re.span Re.Dot unconfigured_literal = 35) by reflexivity.
    assert (Hl : String.length unconfigured_literal = 36) by reflexivity.
    rewrite Hd in Hdot. rewrite Hl in Hlen. lia. }
  rewrite (get_authselect_state_on_match exec m h out Hq Hlit).
  destruct (Re.re_match state_pattern out) as [mo|] eqn:Hmo;
    [exfalso|reflexivity].
  destruct (PatternFacts.state_pattern_parse out mo Hmo)
    as (w' & sep' & blob & tail & Hs & Hw' & Hsep' & Hb & Ht & Hmax & _).
  assert (Hww : w' = w).
  { rewrite <- (PatternFacts.leading_token w' sep' (blob ++ tail) Hw' Hsep').
    rewrite <- Hs. unfold out. apply PatternFacts.leading_token; assumption. }
  subst w'. unfold out in Hs. apply append_cancel_l in Hs.
  assert (Hlens : String.length sep = String.length sep').
  { apply (f_equal (Re.span Re.NonWord)) in Hs.
    rewrite (ReFacts.span_app _ sep), (ReFacts.span_app _ sep') in Hs
      by (apply Hsep || apply Hsep').
    rewrite Hmax in Hs.
    rewrite (SplitFacts.span_nonword_token tok _ Htok) in Hs. lia. }
  apply (f_equal (drop (String.length sep))) in Hs.
  rewrite drop_app_length, Hlens, drop_app_length in Hs.
  pose proof (span_dot_newline (tok ++ x) y) as Hdot.
  rewrite SplitFacts.append_assoc, Hs in Hdot.
  rewrite ReFacts.span_app in Hdot by exact Hb.
  apply (f_equal String.length) in Hs.
  rewrite <- SplitFacts.append_assoc in Hs.
  rewrite !SplitFacts.length_append in Hs, Hdot.
  rewrite SplitFacts.length_append in Hs. cbn [String.length] in Hs.
  rewrite (SplitFacts.length_append blob tail) in Hs.
  destruct Ht as [->| ->]; simpl in Hs, Hdot; lia.
Qed.

(** X9.  The separator after the profile is taken whole: in a feature
    list the reader returns, the first name is the empty string only when
    it is the only one. *)
Theorem empty_first_feature_is_alone
        (m : AnsibleModule) (h : host System)
        (rc : Z) (std_out std_err : string) (d : pydict) (fs : list pyval) :
  fst (exec authselect_current (system h)) = (rc, std_out, std_err) ->
  fst (get_authselect_state exec m h) = Returned (PDict d) ->
  dict_get "features" d = Some (PList (PStr EmptyString :: fs)) ->
  fs = [].
Proof.
  intros Hq Hst Hf.
  destruct (get_authselect_state_inv exec m h rc std_out std_err _ Hq Hst)
    as [_ [[_ Hu]|(_ & _ & w & sep & blob & tail
                   & _ & _ & _ & _ & _ & Hmax & Hc)]].
  - injection Hu as ->. discriminate.
  - injection Hc as ->. injection Hf as Hf.
    destruct blob as [|c blob].
    + cbn in Hf. injection Hf as <-. reflexivity.
    + exfalso. cbn [append Re.span Re.in_class] in Hmax.
      destruct (is_word c) eqn:Hc; [|discriminate].
      destruct (split_scan_first blob (String c blob) EmptyString
                                 (String c EmptyString) eq_refl)
        as (first & rest & Hsplit & Hne); [discriminate|].
      cbn [String.length Nat.add] in Hsplit.
      unfold Re.split in Hf. cbn [Re.split_scan] in Hf.
      rewrite SplitFacts.run_separator in Hf.
      cbn [Re.span Re.in_class] in Hf. rewrite Hc in Hf. cbn [negb] in Hf.
      rewrite Hsplit in Hf. cbn [map] in Hf. injection Hf as Hfirst _.
      congruence.
Qed.

End Edges.

Section Outcome.

Context {System1 System2 : Type}.
Variable exec1 : command -> System1 -> command_result * System1.
Variable exec2 : command -> System2 -> command_result * System2.

(** The outcome of the reader is a function of the query's answer. *)
Lemma get_authselect_state_answer
      (m1 m2 : AnsibleModule) (h1 : host System1) (h2 : host System2) :
  fst (exec1 authselect_current (system h1))
  = fst (exec2 authselect_current (system h2)) ->
  fst (get_authselect_state exec1 m1 h1)
  = fst (get_authselect_state exec2 m2 h2).
Proof.
  intros Ha. unfold get_authselect_state, bind.
  rewrite !run_command_eq, Ha.
  destruct (fst (exec2 authselect_current (system h2))) as [[rc out] err].
  unfold group_of, Re.group, ret, raise, fail_json.
  split_reader; reflexivity.
Qed.

(** X10.  How a run ends depends on the check mode, the requested profile
    and the answer of the state query, and on nothing else: the requested
    features, the commands issued before and the rest of the system have
    no influence on the result. *)
Theorem outcome_depends_on_answer_only
        (m1 m2 : AnsibleModule) (h1 : host System1) (h2 : host System2) :
  check_mode m1 = check_mode m2 ->
  profile (module_params m1) = profile (module_params m2) ->
  fst (exec1 authselect_current (system h1))
  = fst (exec2 authselect_current (system h2)) ->
  fst (run_module exec1 m1 h1) = fst (run_module exec2 m2 h2).
Proof.
  intros Hc Hp Ha. destruct (check_mode m2) eqn:Hc2.
  { rewrite (run_module_check exec1 m1 h1 Hc).
    rewrite (run_module_check exec2 m2 h2 Hc2). reflexivity. }
  pose proof (get_authselect_state_answer m1 m2 h1 h2 Ha) as Hf.
  destruct (get_authselect_state exec1 m1 h1) as [o1 h1'] eqn:E1.
  destruct (get_authselect_state exec2 m2 h2) as [o2 h2'] eqn:E2.
  simpl in Hf. subst o2.
  destruct o1 as [st|kw|kw|e].
  - rewrite (run_module_after_read exec1 m1 h1 _ st Hc E1).
    rewrite (run_module_after_read exec2 m2 h2 _ st Hc2 E2).
    rewrite Hp.
    destruct (String.eqb (profile (module_params m2)) "fail me"); reflexivity.
  - rewrite (run_module_read_aborts exec1 m1 h1 _ _ Hc E1) by discriminate.
    rewrite (run_module_read_aborts exec2 m2 h2 _ _ Hc2 E2) by discriminate.
    reflexivity.
  - rewrite (run_module_read_aborts exec1 m1 h1 _ _ Hc E1) by discriminate.
    rewrite (run_module_read_aborts exec2 m2 h2 _ _ Hc2 E2) by discriminate.
    reflexivity.
  - rewrite (run_module_read_aborts exec1 m1 h1 _ _ Hc E1) by discriminate.
    rewrite (run_module_read_aborts exec2 m2 h2 _ _ Hc2 E2) by discriminate.
    reflexivity.
Qed.

End Outcome.

Section Ends.

Context {System : Type}.
Variable exec : command -> System -> command_result * System.

(** X11.  A run always ends through [exit_json], through [fail_json], or
    with the [AttributeError] of an output the state pattern rejects: it
    never comes back without a result and no other exception escapes. *)
Theorem run_module_ends (m : AnsibleModule) (h : host System) :
  (exists kw, fst (run_module exec m h) = ExitJson kw)
  \/ (exists kw, fst (run_module exec m h) = FailJson kw)
  \/ fst (run_module exec m h)
     = Raised (AttributeError "'NoneType' object has no attribute 'group'").
Proof.
  destruct (check_mode m) eqn:Hc.
  { left. rewrite (run_module_check exec m h Hc). eexists. reflexivity. }
  assert (Hreader :
            (exists st, fst (get_authselect_state exec m h) = Returned st)
            \/ (exists kw, fst (get_authselect_state exec m h) = FailJson kw)
            \/ fst (get_authselect_state exec m h)
               = Raised (AttributeError
                           "'NoneType' object has no attribute 'group'")).
  { destruct (fst (exec authselect_current (system h)))
      as [[rc out] err] eqn:Hq.
    destruct (Z.eq_dec rc 2) as [->|Hrc].
    2:{ right; left.
        rewrite (get_authselect_state_failed exec m h rc out err Hq)
          by (left; exact Hrc). eexists. reflexivity. }
    destruct (String.eqb_spec out unconfigured_literal) as [->|Hlit].
    { left. exists unconfigured_state.
      unfold get_authselect_state, bind. rewrite run_command_eq, Hq.
      reflexivity. }
    destruct (String.eqb_spec err EmptyString) as [->|Herr].
    2:{ right; left.
        rewrite (get_authselect_state_failed exec m h 2 out err Hq)
          by (right; split; assumption). eexists. reflexivity. }
    rewrite (get_authselect_state_on_match exec m h out Hq Hlit).
    destruct (Re.re_match state_pattern out) as [mo|] eqn:Hmo.
    - left.
      destruct (PatternFacts.state_pattern_parse out mo Hmo)
        as (w & _ & blob & _ & _ & _ & _ & _ & _ & _ & Hp & Hf).
      rewrite Hp, Hf. eexists. reflexivity.
    - right; right. reflexivity. }
  destruct (get_authselect_state exec m h) as [o h'] eqn:E. simpl in Hreader.
  destruct Hreader as [[st ->]|[[kw ->]| ->]].
  - rewrite (run_module_after_read exec m h h' st Hc E). simpl.
    destruct (String.eqb (profile (module_params m)) "fail me").
    + right; left. eexists. reflexivity.
    + left. eexists. reflexivity.
  - rewrite (run_module_read_aborts exec m h _ _ Hc E) by discriminate.
    right; left. eexists. reflexivity.
  - rewrite (run_module_read_aborts exec m h _ _ Hc E) by discriminate.
    right; right. reflexivity.
Qed.

End Ends.

(** ** The further properties on sample hosts *)

Lemma reader_returns_iff_state_line_witness :
  (exists st,
      fst (get_authselect_state stub_exec (Invocation false sssd_with_sudo)
                                bare_sssd_host) = Returned st)
  <-> state_line ("sssd" ++ LF).
Proof.
  apply (reader_returns_iff_state_line
           stub_exec (Invocation false sssd_with_sudo) bare_sssd_host
           ("sssd" ++ LF)).
  - reflexivity.
  - reflexivity.
  - apply String.eqb_neq. reflexivity.
Defined.

Lemma profile_is_leading_token_witness :
  word_token "sssd"
  /\ "sssd" = take (Re.span Re.Word ("sssd sudo mkhomedir" ++ LF))
                   ("sssd sudo mkhomedir" ++ LF).
Proof.
  apply (profile_is_leading_token
           stub_exec (Invocation false sssd_with_sudo) plain_features_host
           2%Z ("sssd sudo mkhomedir" ++ LF) EmptyString
           [("profile", PStr "sssd");
            ("features", PList [PStr "sudo"; PStr "mkhomedir"]);
            ("msg", PStr "OK")]
           "sssd").
  - reflexivity.
  - reflexivity.
  - reflexivity.
  - reflexivity.
Defined.

Lemma features_are_word_pieces_witness :
  exists feats,
    [PStr "sudo"; PStr "mkhomedir"] = map PStr feats
    /\ feats <> []
    /\ Forall word_only feats
    /\ Forall (fun f => mem_char "-"%char f = false
                        /\ mem_char " "%char f = false
                        /\ mem_char nl f = false) feats.
Proof.
  apply (features_are_word_pieces
           stub_exec (Invocation false sssd_with_sudo) plain_features_host
           2%Z ("sssd sudo mkhomedir" ++ LF) EmptyString
           [("profile", PStr "sssd");
            ("features", PList [PStr "sudo"; PStr "mkhomedir"]);
            ("msg", PStr "OK")]).
  - reflexivity.
  - reflexivity.
  - reflexivity.
  - reflexivity.
Defined.

Lemma word_features_round_trip_witness :
  get_authselect_state stub_exec (Invocation false sssd_with_sudo)
                       plain_features_host
  = (Returned (PDict [("profile", PStr "sssd");
                      ("features", PList [PStr "sudo"; PStr "mkhomedir"]);
                      ("msg", PStr "OK")]),
     queried stub_exec plain_features_host).
Proof.
  apply (word_features_round_trip
           stub_exec (Invocation false sssd_with_sudo) plain_features_host
           "sssd" " " "sudo" LF [(" ", "mkhomedir")]).
  - reflexivity.
  - reflexivity.
  - apply String.eqb_neq. reflexivity.
  - split; [discriminate|reflexivity].
  - split; [discriminate|reflexivity].
  - split; [discriminate|reflexivity].
  - constructor; [|constructor].
    split; (split; [discriminate|reflexivity]).
  - reflexivity.
  - right. reflexivity.
Defined.

Lemma trailing_separator_adds_empty_feature_witness :
  get_authselect_state stub_exec (Invocation false sssd_with_sudo)
                       trailing_blank_host
  = (Returned (PDict [("profile", PStr "sssd");
                      ("features", PList [PStr "sudo"; PStr EmptyString]);
                      ("msg", PStr "OK")]),
     queried stub_exec trailing_blank_host).
Proof.
  apply (trailing_separator_adds_empty_feature
           stub_exec (Invocation false sssd_with_sudo) trailing_blank_host
           "sssd" " " "sudo" " " LF []).
  - reflexivity.
  - reflexivity.
  - apply String.eqb_neq. reflexivity.
  - split; [discriminate|reflexivity].
  - split; [discriminate|reflexivity].
  - split; [discriminate|reflexivity].
  - constructor.
  - split; [discriminate|reflexivity].
  - reflexivity.
  - right. reflexivity.
Defined.

Lemma run_module_succeeds_iff_witness :
  (exists kw,
      fst (run_module stub_exec (Invocation false sssd_with_sudo)
                      unconfigured_host) = ExitJson kw)
  <-> ("sssd" <> "fail me"
       /\ 2%Z = 2%Z
       /\ (unconfigured_literal = unconfigured_literal
           \/ (EmptyString = EmptyString
               /\ state_line unconfigured_literal))).
Proof.
  apply (run_module_succeeds_iff
           stub_exec (Invocation false sssd_with_sudo) unconfigured_host
           2%Z unconfigured_literal EmptyString).
  - reflexivity.
  - reflexivity.
  - reflexivity.
Defined.

Lemma no_token_or_no_separator_raises_witness :
  fst (get_authselect_state stub_exec (Invocation false sssd_with_sudo)
                            silent_host)
  = Raised (AttributeError "'NoneType' object has no attribute 'group'").
Proof.
  apply (no_token_or_no_separator_raises
           stub_exec (Invocation false sssd_with_sudo) silent_host
           EmptyString).
  - reflexivity.
  - reflexivity.
  - left. reflexivity.
Defined.

Lemma second_line_raises_witness :
  fst (get_authselect_state stub_exec (Invocation false sssd_with_sudo)
                            two_line_host)
  = Raised (AttributeError "'NoneType' object has no attribute 'group'").
Proof.
  apply (second_line_raises
           stub_exec (Invocation false sssd_with_sudo) two_line_host
           "sssd" " " "sudo" EmptyString ("extra" ++ LF)).
  - reflexivity.
  - reflexivity.
  - split; [discriminate|reflexivity].
  - split; [discriminate|reflexivity].
  - split; [discriminate|reflexivity].
  - discriminate.
Defined.

Lemma empty_first_feature_is_alone_witness : @nil pyval = [].
Proof.
  apply (empty_first_feature_is_alone
           stub_exec (Invocation false sssd_with_sudo) bare_sssd_host
           2%Z ("sssd" ++ LF) EmptyString
           [("profile", PStr "sssd");
            ("features", PList [PStr EmptyString]);
            ("msg", PStr "OK")]).
  - reflexivity.
  - reflexivity.
  - reflexivity.
Defined.

Lemma outcome_depends_on_answer_only_witness :
  fst (run_module stub_exec (Invocation false sssd_with_sudo)
                  plain_features_host)
  = fst (run_module stub_exec (Invocation false (Params "sssd" None))
                    (Host (system plain_features_host)
                          [authselect_current])).
Proof.
  apply (outcome_depends_on_answer_only
           stub_exec stub_exec
           (Invocation false sssd_with_sudo)
           (Invocation false (Params "sssd" None))
           plain_features_host
           (Host (system plain_features_host) [authselect_current])).
  - reflexivity.
  - reflexivity.
  - reflexivity.
Defined.
